(** * OpenTamPy: a shallow embedding of [src/src/OpenTamPy.py]

    The client is modelled the way it is written: Python [str] values are
    [string]s (ASCII code points), integers are [Z], JSON documents are a
    [value] tree whose objects keep their insertion order, raised exceptions
    are the [Raise] branch of [result], and the memoising decorators and the
    generator objects live in an explicit client state. *)

From stdpp Require Import base numbers strings list gmap.
From Stdlib Require Import ZArith Lia String Ascii List QArith.
Import ListNotations.

#[local] Set Warnings "-register-all".
#[local] Open Scope string_scope.
#[local] Open Scope Z_scope.

(** ** Values *)

(** What [json.loads] builds, and [Munch] beside [dict].  A number with a
    fraction or an exponent is a float, held by its exact value (the module's
    JSON has no NaN or infinity); an object keeps its members in order. *)
Inductive value : Type :=
| VNone
| VBool (b : bool)
| VInt (n : Z)
| VFloat (q : Q)
| VStr (s : string)
| VList (l : list value)
| VDict (kvs : list (string * value))
| VMunch (kvs : list (string * value)).

(** ** Exceptions and results *)

(** The exception classes of the module, and the built-in ones its code can
    raise.  [AssertionError] carries the message of the [assert]: the text
    of its f-string and the values formatted into it. *)
Inductive exn : Type :=
| IntranetConnectionError
| AuthenticationError
| WrongWebpageReturned
| UserIdNotMatching
| BadStatusCode (status : Z) (label : string)
| BadTimestamp
| MissingPermission
| AssertionError (msg : string) (args : list value)
| AttributeError (attr : string)
| IndexError
| KeyError (key : string)
| TypeError
| ValueError
| JSONDecodeError.

Inductive result (A : Type) : Type :=
| Ok (a : A)
| Raise (e : exn).
Arguments Ok {A} a.
Arguments Raise {A} e.

Definition rbind {A B} (r : result A) (k : A -> result B) : result B :=
  match r with
  | Ok a => k a
  | Raise e => Raise e
  end.

#[global] Instance result_ret : MRet result := fun _ a => Ok a.
#[global] Instance result_bind : MBind result := fun _ _ k r => rbind r k.

Definition of_option {A} (e : exn) (o : option A) : result A :=
  match o with
  | Some a => Ok a
  | None => Raise e
  end.

(** ** Decimal text: [str(int)] and [int(str)] *)

Module Decimal.

Definition digit_char (d : Z) : ascii := ascii_of_N (Z.to_N (48 + d)).

Definition digit_of_char (c : ascii) : option Z :=
  let n := Z.of_N (N_of_ascii c) in
  if (48 <=? n) && (n <=? 57) then Some (n - 48) else None.

(** Digits of a non-negative number, least significant first. *)
Fixpoint digits_rev (fuel : nat) (n : Z) : list Z :=
  match fuel with
  | O => []
  | S f => if n <? 10 then [n] else (n mod 10) :: digits_rev f (n / 10)
  end.

Definition digits (n : Z) : list Z :=
  rev (digits_rev (S (Z.to_nat (Z.log2 n))) n).

Definition string_of_chars (l : list ascii) : string :=
  fold_right String EmptyString l.

(** [str(n)] for a Python [int]. *)
Definition str (n : Z) : string :=
  if n <? 0
  then String "-" (string_of_chars (map digit_char (digits (- n))))
  else string_of_chars (map digit_char (digits n)).

Fixpoint parse_digits (s : string) (acc : Z) : option Z :=
  match s with
  | EmptyString => Some acc
  | String c s' =>
      match digit_of_char c with
      | Some d => parse_digits s' (10 * acc + d)
      | None => None
      end
  end.

(** Value of a run of digits, most significant first, after [acc]. *)
Definition horner (l : list Z) (acc : Z) : Z := fold_left (fun a d => 10 * a + d) l acc.

(** [int(s)] on the texts the module hands to it: an optional minus sign
    and at least one decimal digit; anything else is a [ValueError]. *)
Definition int (s : string) : result Z :=
  match s with
  | EmptyString => Raise ValueError
  | String c s' =>
      if Ascii.eqb c "-"
      then match s' with
           | EmptyString => Raise ValueError
           | _ => of_option ValueError (Z.opp <$> parse_digits s' 0)
           end
      else of_option ValueError (parse_digits s 0)
  end.

End Decimal.

(** ** Calendar: [datetime.date], [calendar.timegm] *)

Module Calendar.

(** [datetime._is_leap] *)
Definition _is_leap (year : Z) : bool :=
  (year mod 4 =? 0) && (negb (year mod 100 =? 0) || (year mod 400 =? 0)).

(** [datetime._days_before_year] *)
Definition _days_before_year (year : Z) : Z :=
  let y := year - 1 in y * 365 + y / 4 - y / 100 + y / 400.

(** [datetime._days_in_month] *)
Definition _days_in_month (year month : Z) : Z :=
  if (month =? 2) && _is_leap year then 29
  else nth (Z.to_nat month) [-1; 31; 28; 31; 30; 31; 30; 31; 31; 30; 31; 30; 31] (-1).

(** [datetime._days_before_month] *)
Definition _days_before_month (year month : Z) : Z :=
  nth (Z.to_nat month) [-1; 0; 31; 59; 90; 120; 151; 181; 212; 243; 273; 304; 334] (-1)
  + (if (2 <? month) && _is_leap year then 1 else 0).

(** [datetime._ymd2ord]: the proleptic Gregorian ordinal, 0001-01-01 being
    day 1. *)
Definition _ymd2ord (year month day : Z) : Z :=
  _days_before_year year + _days_before_month year month + day.

(** A [datetime.date], held by its ordinal: the only operations the module
    applies to a date ([weekday], subtracting a [timedelta] of whole days,
    [timetuple] fed to [timegm]) are functions of the ordinal. *)
Record date : Type := Date { toordinal : Z }.

(** [datetime.date(year, month, day)]; a [ValueError] outside the calendar. *)
Definition mkdate (year month day : Z) : result date :=
  if (1 <=? year) && (year <=? 9999) && (1 <=? month) && (month <=? 12)
     && (1 <=? day) && (day <=? _days_in_month year month)
  then Ok (Date (_ymd2ord year month day))
  else Raise ValueError.

(** [date.weekday()]: Monday is 0. *)
Definition weekday (d : date) : Z := (toordinal d + 6) mod 7.

(** [d - datetime.timedelta(days)] *)
Definition sub_days (d : date) (days : Z) : date := Date (toordinal d - days).

(** [datetime.date(1970, 1, 1).toordinal()] *)
Definition _EPOCH_ORD : Z := 719163.

(** [calendar.timegm(d.timetuple())]: the time fields of a date's
    [timetuple] are zero, and
    [date(y, m, 1).toordinal() - _EPOCH_ORD + day - 1] is the date's own
    ordinal minus the epoch's. *)
Definition timegm_date (d : date) : Z :=
  let days := toordinal d - _EPOCH_ORD in
  let hours := days * 24 + 0 in
  let minutes := hours * 60 + 0 in
  minutes * 60 + 0.

End Calendar.

(** ** The default window: [_get_mon_and_sun] *)

(** The body of [_get_mon_and_sun], with the date read from the clock as its
    argument. *)
Definition _get_mon_and_sun (today : Calendar.date) : result (string * string) :=
  let diff := Calendar.weekday today in
  let prev_mon :=
    Decimal.str (Calendar.timegm_date (Calendar.sub_days today diff) - 7200) +:+ "000" in
  n ← Decimal.int prev_mon;
  let next_sun := Decimal.str (n + 691200) +:+ "000" in
  Ok (prev_mon, next_sun).

(** The [@cache] around it: a function of no argument keeps one entry for the
    life of the process. *)
Definition _get_mon_and_sun_cached (today : Calendar.date)
    (memo : option (string * string)) : result (string * string) * option (string * string) :=
  match memo with
  | Some w => (Ok w, memo)
  | None =>
      match _get_mon_and_sun today with
      | Ok w => (Ok w, Some w)
      | Raise e => (Raise e, None)
      end
  end.

(** What the week of [today] is: its Monday at 00:00 and the end of its
    Sunday, as millisecond timestamps in a zone [offset] seconds east of UTC. *)
Definition monday_midnight_ms (offset : Z) (today : Calendar.date) : Z :=
  (((Calendar.toordinal today - Calendar.weekday today) - Calendar._EPOCH_ORD) * 86400
   - offset) * 1000.

Definition sunday_end_ms (offset : Z) (today : Calendar.date) : Z :=
  monday_midnight_ms offset today + 7 * 86400 * 1000.

(** ** Python [str] methods the module uses *)

Module Str.

Definition code (c : ascii) : Z := Z.of_N (N_of_ascii c).

Definition is_digit (c : ascii) : bool := (48 <=? code c) && (code c <=? 57).

(** [\w] on ASCII text: letters, digits and the underscore. *)
Definition is_word (c : ascii) : bool :=
  is_digit c || ((65 <=? code c) && (code c <=? 90))
  || ((97 <=? code c) && (code c <=? 122)) || (code c =? 95).

(** What [str.strip()] removes: tab, line feed, vertical tab, form feed,
    carriage return, the separators 0x1c to 0x1f and the space. *)
Definition is_space (c : ascii) : bool :=
  ((9 <=? code c) && (code c <=? 13)) || ((28 <=? code c) && (code c <=? 32)).

Definition lower_char (c : ascii) : ascii :=
  if (65 <=? code c) && (code c <=? 90) then ascii_of_N (Z.to_N (code c + 32)) else c.

(** [s.lower()] *)
Fixpoint lower (s : string) : string :=
  match s with
  | EmptyString => EmptyString
  | String c s' => String (lower_char c) (lower s')
  end.

Fixpoint lstrip (s : string) : string :=
  match s with
  | EmptyString => EmptyString
  | String c s' => if is_space c then lstrip s' else s
  end.

Fixpoint rstrip (s : string) : string :=
  match s with
  | EmptyString => EmptyString
  | String c s' =>
      match rstrip s' with
      | EmptyString => if is_space c then EmptyString else String c EmptyString
      | r => String c r
      end
  end.

(** [s.strip()] *)
Definition strip (s : string) : string := rstrip (lstrip s).

(** [s.split(sep)] for a separator of one character: the pieces between
    the separators, empty pieces included. *)
Fixpoint split (sep : ascii) (s : string) : list string :=
  match s with
  | EmptyString => [EmptyString]
  | String c s' =>
      if Ascii.eqb c sep then EmptyString :: split sep s'
      else match split sep s' with
           | p :: ps => String c p :: ps
           | [] => [String c EmptyString]
           end
  end.

(** Number of occurrences of a character. *)
Fixpoint count (sep : ascii) (s : string) : nat :=
  match s with
  | EmptyString => O
  | String c s' => (if Ascii.eqb c sep then 1 else 0)%nat + count sep s'
  end.

(** [s.replace(old, new)]: non-overlapping occurrences, left to right
    ([old] is never empty in the module). *)
Fixpoint replace_fuel (fuel : nat) (old new s : string) : string :=
  match fuel with
  | O => s
  | S f =>
      match s with
      | EmptyString => EmptyString
      | String c s' =>
          if String.prefix old s
          then new +:+ replace_fuel f old new
                         (String.substring (String.length old)
                            (String.length s - String.length old) s)
          else String c (replace_fuel f old new s')
      end
  end.

Definition replace (old new s : string) : string :=
  replace_fuel (S (String.length s)) old new s.

(** [s[:-n]] *)
Definition drop_last (n : nat) (s : string) : string :=
  String.substring 0 (String.length s - n) s.

(** [s[n:]] *)
Definition drop_first (n : nat) (s : string) : string :=
  String.substring n (String.length s - n) s.

End Str.

(** ** [datetime.datetime.strptime(s, "%d.%m.%y")] and [timestamp()] *)

Module Strptime.

(** A character class, an alternative (a fixed run of classes) and a group
    (alternatives tried in the order the regular expression lists them). *)
Definition cls : Type := ascii -> bool.

Definition range (lo hi : ascii) : cls :=
  fun c => (Str.code lo <=? Str.code c) && (Str.code c <=? Str.code hi).
Definition lit (a : ascii) : cls := fun c => Ascii.eqb c a.

Fixpoint match_alt (p : list cls) (s : string) : option (string * string) :=
  match p with
  | [] => Some (EmptyString, s)
  | k :: p' =>
      match s with
      | EmptyString => None
      | String c s' =>
          if k c
          then match match_alt p' s' with
               | Some (m, rest) => Some (String c m, rest)
               | None => None
               end
          else None
      end
  end.

(** Backtracking match of a sequence of groups at the start of [s]: the
    texts of the groups and what is left of [s]. *)
Fixpoint match_groups (gs : list (list (list cls))) (s : string)
    : option (list string * string) :=
  match gs with
  | [] => Some ([], s)
  | g :: gs' =>
      (fix try (alts : list (list cls)) : option (list string * string) :=
         match alts with
         | [] => None
         | a :: alts' =>
             match match_alt a s with
             | Some (m, rest) =>
                 match match_groups gs' rest with
                 | Some (ms, rest') => Some (m :: ms, rest')
                 | None => try alts'
                 end
             | None => try alts'
             end
         end) g
  end.

(** [%d]: [3[0-1]|[1-2]\d|0[1-9]|[1-9]| [1-9]] *)
Definition re_d : list (list cls) :=
  [ [lit "3"; range "0" "1"]; [range "1" "2"; Str.is_digit]; [lit "0"; range "1" "9"];
    [range "1" "9"]; [lit " "; range "1" "9"] ].
(** [%m]: [1[0-2]|0[1-9]|[1-9]] *)
Definition re_m : list (list cls) :=
  [ [lit "1"; range "0" "2"]; [lit "0"; range "1" "9"]; [range "1" "9"] ].
(** [%y]: [\d\d] *)
Definition re_y : list (list cls) := [ [Str.is_digit; Str.is_digit] ].
Definition re_dot : list (list cls) := [ [lit "."] ].

(** The compiled format ["%d.%m.%y"]. *)
Definition format_regex : list (list (list cls)) := [re_d; re_dot; re_m; re_dot; re_y].

(** [int()] of a matched field; it skips the blank of [" 5"]. *)
Definition int_field (m : string) : result Z :=
  of_option ValueError (Decimal.parse_digits (Str.strip m) 0).

(** [strptime(s, "%d.%m.%y")]: the expression must match at the start of
    [s] and leave nothing over, a two-digit year up to 68 is in the 2000s,
    and the fields must name a day of the calendar.  The time of day of the
    result is 00:00:00, so the result is held as a date. *)
Definition strptime (s : string) : result Calendar.date :=
  match match_groups format_regex s with
  | Some ([d; _; m; _; y], EmptyString) =>
      day ← int_field d;
      month ← int_field m;
      yy ← int_field y;
      let year := if yy <=? 68 then yy + 2000 else yy + 1900 in
      Calendar.mkdate year month day
  | _ => Raise ValueError
  end.

End Strptime.

(** ** JSON values and the Record wrapper *)

(** [d[k]] / [k in d] on the members of a dict. *)
Fixpoint assoc {A} (k : string) (kvs : list (string * A)) : option A :=
  match kvs with
  | [] => None
  | (k', v) :: rest => if String.eqb k k' then Some v else assoc k rest
  end.

Definition keys {A} (kvs : list (string * A)) : list string := map fst kvs.

(** [munch.munchify(x, factory=Munch)]: every dict becomes a [Munch], lists
    are rebuilt around their munchified elements, the rest is returned. *)
Fixpoint munchify (x : value) : value :=
  match x with
  | VList l => VList (map munchify l)
  | VDict kvs => VMunch (map (fun kv => (fst kv, munchify (snd kv))) kvs)
  | VMunch kvs => VMunch (map (fun kv => (fst kv, munchify (snd kv))) kvs)
  | _ => x
  end.

(** [Munch.toDict] ([munch.unmunchify]): the way back to plain dicts. *)
Fixpoint toDict (x : value) : value :=
  match x with
  | VList l => VList (map toDict l)
  | VDict kvs => VDict (map (fun kv => (fst kv, toDict (snd kv))) kvs)
  | VMunch kvs => VDict (map (fun kv => (fst kv, toDict (snd kv))) kvs)
  | _ => x
  end.

(** The number a bool, int or float stands for in a comparison. *)
Definition num_val (x : value) : option Q :=
  match x with
  | VBool b => Some (inject_Z (if b then 1 else 0))
  | VInt n => Some (inject_Z n)
  | VFloat q => Some q
  | _ => None
  end.

(** Python's [==].  Numbers compare by value across bool, int and float;
    lists compare element by element; a dict and a [Munch] (a dict subclass
    that keeps [dict.__eq__]) are equal when they have as many members and
    every key of the left one is in the right one with an equal value. *)
Fixpoint py_eqb (a b : value) {struct a} : bool :=
  match a, b with
  | VNone, VNone => true
  | VStr s, VStr t => String.eqb s t
  | VList la, VList lb =>
      (fix list_eqb (la : list value) (lb : list value) {struct la} : bool :=
         match la, lb with
         | [], [] => true
         | x :: la', y :: lb' => py_eqb x y && list_eqb la' lb'
         | _, _ => false
         end) la lb
  | (VDict ka | VMunch ka), (VDict kb | VMunch kb) =>
      (length ka =? length kb)%nat
      && (fix all_in (ka : list (string * value)) {struct ka} : bool :=
            match ka with
            | [] => true
            | (k, x) :: ka' =>
                match assoc k kb with
                | Some y => py_eqb x y
                | None => false
                end && all_in ka'
            end) ka
  | _, _ =>
      match num_val a, num_val b with
      | Some x, Some y => Qeq_bool x y
      | _, _ => false
      end
  end.

(** [iter(x)]: what a [for] loop over a JSON value visits. *)
Definition py_iter (x : value) : result (list value) :=
  match x with
  | VList l => Ok l
  | VDict kvs | VMunch kvs => Ok (map VStr (keys kvs))
  | VStr s => Ok (map (fun c => VStr (String c EmptyString)) (list_ascii_of_string s))
  | _ => Raise TypeError
  end.

(** [x[k]] with a string key. *)
Definition getitem (x : value) (k : string) : result value :=
  match x with
  | VDict kvs | VMunch kvs => of_option (KeyError k) (assoc k kvs)
  | _ => Raise TypeError
  end.


(** [x.k] for the attribute names the module reads ([name], [personId],
    [students], [data], [id], [courseId], ...), none of which is a method of
    [dict]: a [Munch] answers for its keys, and nothing else in a JSON value
    has such an attribute. *)
Definition getattr (x : value) (k : string) : result value :=
  match x with
  | VMunch kvs => of_option (AttributeError k) (assoc k kvs)
  | _ => Raise (AttributeError k)
  end.

Section MunchHash.
(** [hash] of a [frozenset] of strings: a function of the set, whatever the
    interpreter's string hashing is. *)
Variable hash_frozenset : gset string -> Z.

(** [Munch.__hash__]: [hash(frozenset(self.toDict()))]; a frozenset built
    from a dict holds the dict's keys. *)
Definition Munch_hash (self : value) : result Z :=
  match self with
  | VMunch _ =>
      match toDict self with
      | VDict kvs => Ok (hash_frozenset (list_to_set (keys kvs)))
      | _ => Raise TypeError
      end
  | _ => Raise TypeError
  end.
End MunchHash.


(** ** HTTP, the Response Validator and the Extraction Layer *)

Inductive http_method : Type := GET | POST.

(** A request of the session: the form fields are kept as the values the
    f-strings of the source format. *)
Record request : Type := Request {
  meth : http_method;
  url : string;
  headers : list (string * string);
  data : list (string * value)
}.

(** A [requests.Response]: the status and the body (ASCII, so that
    [content.decode()] is the body itself). *)
Record http_response : Type := Response {
  status_code : Z;
  content : string
}.

(** [response.ok]: [raise_for_status()] does not raise, which it does for the
    statuses 400 to 599. *)
Definition response_ok (r : http_response) : bool :=
  negb ((400 <=? status_code r) && (status_code r <? 600)).

(** [_verify_response_code]: the [assert] message is
    [f"Error {response.status_code}"], held as its text and the formatted
    value. *)
Definition _verify_response_code (name : string) (response : http_response)
    : result http_response :=
  if response_ok response
  then Ok response
  else Raise (AssertionError "Error {}" [VInt (status_code response)]).

Module Extract.

Definition backslash : ascii := ascii_of_N 92.
Definition dquote : ascii := ascii_of_N 34.
Definition squote : ascii := ascii_of_N 39.
Definition newline : ascii := ascii_of_N 10.

Fixpoint contains (a : ascii) (s : string) : bool :=
  match s with
  | EmptyString => false
  | String c s' => Ascii.eqb c a || contains a s'
  end.

Definition hex_digit (n : Z) : ascii :=
  nth (Z.to_nat n) (list_ascii_of_string "0123456789abcdef") "0"%char.

Definition repr_byte (quote c : ascii) : string :=
  let one (a : ascii) := String a EmptyString in
  if Ascii.eqb c quote || Ascii.eqb c backslash then String backslash (one c)
  else if Str.code c =? 9 then String backslash "t"
  else if Str.code c =? 10 then String backslash "n"
  else if Str.code c =? 13 then String backslash "r"
  else if (Str.code c <? 32) || (127 <=? Str.code c)
       then String backslash
              (String "x" (String (hex_digit (Str.code c / 16)) (one (hex_digit (Str.code c mod 16)))))
  else one c.

Fixpoint repr_body (quote : ascii) (b : string) : string :=
  match b with
  | EmptyString => EmptyString
  | String c b' => repr_byte quote c +:+ repr_body quote b'
  end.

(** [str(b)] of a [bytes] object: its [repr], [b'...'] (or [b"..."] when
    the bytes hold an apostrophe and no double quote). *)
Definition bytes_repr (b : string) : string :=
  let quote := if contains squote b && negb (contains dquote b) then dquote else squote in
  String "b" (String quote (repr_body quote b +:+ String quote EmptyString)).

(** Greedy [.*] followed by the literal [pat]: the longest run without a
    line feed after which [pat] stands; the text matched, [pat] included. *)
Fixpoint dotstar_then (pat line : string) : option string :=
  match line with
  | EmptyString => if String.eqb pat EmptyString then Some EmptyString else None
  | String c rest =>
      match (if Ascii.eqb c newline then None else dotstar_then pat rest) with
      | Some m => Some (String c m)
      | None => if String.prefix pat line then Some pat else None
      end
  end.

Definition after_prefix (p s : string) : option string :=
  if String.prefix p s
  then Some (String.substring (String.length p) (String.length s - String.length p) s)
  else None.

(** [re.search(_REGEX_ABSENCES, s)], the expression being
    [(?<=gridDataAndConfiguration:){.*},front]: the leftmost brace that
    follows the marker and from which [.*},front] matches; [group()]. *)
Fixpoint search_absences (s : string) : option string :=
  let here :=
    match after_prefix "gridDataAndConfiguration:" s with
    | Some (String "{" rest) =>
        match dotstar_then "},front" rest with
        | Some m => Some (String "{" m)
        | None => None
        end
    | _ => None
    end in
  match here with
  | Some m => Some m
  | None =>
      match s with
      | EmptyString => None
      | String _ s' => search_absences s'
      end
  end.

Fixpoint take_word (s : string) : string :=
  match s with
  | EmptyString => EmptyString
  | String c s' => if Str.is_word c then String c (take_word s') else EmptyString
  end.

(** [re.search(_REGEX_CSRFTOKEN, s)], the expression being
    [(?<=csrfToken=')\w+]. *)
Fixpoint search_csrftoken (s : string) : option string :=
  let here :=
    match after_prefix "csrfToken='" s with
    | Some rest =>
        match take_word rest with
        | EmptyString => None
        | w => Some w
        end
    | None => None
    end in
  match here with
  | Some w => Some w
  | None =>
      match s with
      | EmptyString => None
      | String _ s' => search_csrftoken s'
      end
  end.

(** The two backslashes that [.replace("\\\\", "\\")] collapses to one. *)
Definition two_backslashes : string := String backslash (String backslash EmptyString).
Definition one_backslash : string := String backslash EmptyString.

End Extract.

(** ** The client: state, memoisation and generators *)

(** The interpreter and library functions the module calls and that are not
    its own code: [json.loads] ([None] for a [JSONDecodeError]), [str()] of a
    JSON value, BeautifulSoup's [soup.input['value']], the decoding of a
    picture and the local time zone ([datetime.timestamp()] of a naive
    datetime maps its wall-clock seconds to a POSIX timestamp). *)
Record lib : Type := Lib {
  json_loads : string -> option value;
  py_str : value -> string;
  soup_input_value : string -> option string;
  image_open : string -> result value;
  local_to_utc : Z -> Z
}.

(** What is outside the process: the portal behind the session (each request
    gets a response) and the clock's date. *)
Record env : Type := Env {
  send : request -> http_response;
  today : Calendar.date
}.

(** A date argument of [get_timetable]: the default [0] or a text. *)
Inductive pyarg : Type :=
| AInt (n : Z)
| AStr (s : string).

Definition str_arg (a : pyarg) : string :=
  match a with
  | AInt n => Decimal.str n
  | AStr s => s
  end.

Definition value_of_arg (a : pyarg) : value :=
  match a with
  | AInt n => VInt n
  | AStr s => VStr s
  end.

(** A call of a method decorated with [@cache]: the method and its bound
    arguments, which key the method's cache. *)
Inductive call : Type :=
| Call_get_resources
| Call_get_timetable (start_date end_date : pyarg) (user_id timeout : value)
| Call_get_absences
| Call__get_lesson_absence_data (lesson : value)
| Call_get_lesson_absence_data (lesson : value)
| Call_get_additional_homework_info (lesson : value)
| Call_get_class_mates
| Call_get_class_teachers.

(** The bodies of the four generator functions. *)
Inductive gen_body : Type :=
| Body_get_timetable (start_date end_date : pyarg) (user_id timeout : value)
| Body_get_absences
| Body_get_class_mates
| Body_get_class_teachers.

(** A generator object: not yet started, suspended at the [yield] of its
    loop with the items still to visit, or finished. *)
Inductive gen_state : Type :=
| Created (body : gen_body)
| Suspended (rest : list value)
| Closed.

(** Objects with an identity: generators, and the values the methods return. *)
Inductive obj : Type :=
| OGen (g : gen_state)
| OVal (v : value).

Record state : Type := State {
  heap : list obj;
  memo : list (call * nat);
  mon_sun : option (string * string);
  log : list string
}.

Definition set_heap (h : list obj) (st : state) : state :=
  State h (memo st) (mon_sun st) (log st).
Definition set_memo (m : list (call * nat)) (st : state) : state :=
  State (heap st) m (mon_sun st) (log st).
Definition set_mon_sun (w : option (string * string)) (st : state) : state :=
  State (heap st) (memo st) w (log st).
Definition set_log (l : list string) (st : state) : state :=
  State (heap st) (memo st) (mon_sun st) l.

Definition initial_state : state := State [] [] None [].

(** Computations of the client: they read and change the state and return or
    raise. *)
Definition M (A : Type) : Type := state -> result A * state.

#[global] Instance M_ret : MRet M := fun _ a st => (Ok a, st).
#[global] Instance M_bind : MBind M := fun _ _ k m st =>
  match m st with
  | (Ok a, st') => k a st'
  | (Raise e, st') => (Raise e, st')
  end.

Definition raise {A} (e : exn) : M A := fun st => (Raise e, st).
Definition lift {A} (r : result A) : M A := fun st => (r, st).
Definition with_state {A} (f : state -> M A) : M A := fun st => f st st.

(** [logger.error] / [logger.fatal]: the records the logger lets through at
    its default level. *)
Definition log_record (msg : string) : M unit :=
  fun st => (Ok tt, set_log (log st ++ [msg]) st).

(** A new object; its address is its identity. *)
Definition alloc (o : obj) : M nat :=
  fun st => (Ok (length (heap st)), set_heap (heap st ++ [o]) st).

Definition deref (a : nat) : M value :=
  fun st => match heap st !! a with
            | Some (OVal v) => (Ok v, st)
            | _ => (Raise TypeError, st)
            end.

(** Keys of a cache are hashed: lists and dicts cannot be. *)
Definition hashable (v : value) : bool :=
  match v with
  | VList _ | VDict _ => false
  | _ => true
  end.

Definition call_hashable (c : call) : bool :=
  match c with
  | Call_get_timetable _ _ u t => hashable u && hashable t
  | Call__get_lesson_absence_data l | Call_get_lesson_absence_data l
  | Call_get_additional_homework_info l => hashable l
  | _ => true
  end.

Definition pyarg_eqb (a b : pyarg) : bool :=
  match a, b with
  | AInt x, AInt y => x =? y
  | AStr s, AStr t => String.eqb s t
  | _, _ => false
  end.

(** Two calls with the same key: the same method and equal ([==]) arguments.
    For [Munch] arguments equal keys have equal hashes, so that comparing
    them is all a lookup does. *)
Definition call_eqb (a b : call) : bool :=
  match a, b with
  | Call_get_resources, Call_get_resources => true
  | Call_get_timetable s e u t, Call_get_timetable s' e' u' t' =>
      pyarg_eqb s s' && pyarg_eqb e e' && py_eqb u u' && py_eqb t t'
  | Call_get_absences, Call_get_absences => true
  | Call__get_lesson_absence_data l, Call__get_lesson_absence_data l' => py_eqb l l'
  | Call_get_lesson_absence_data l, Call_get_lesson_absence_data l' => py_eqb l l'
  | Call_get_additional_homework_info l, Call_get_additional_homework_info l' => py_eqb l l'
  | Call_get_class_mates, Call_get_class_mates => true
  | Call_get_class_teachers, Call_get_class_teachers => true
  | _, _ => false
  end.

Fixpoint memo_lookup (c : call) (m : list (call * nat)) : option nat :=
  match m with
  | [] => None
  | (c', a) :: m' => if call_eqb c c' then Some a else memo_lookup c m'
  end.

(** [@cache]: a hit returns the stored object and runs nothing; a miss runs
    the body and stores what it returns.  A body that raises stores nothing. *)
Definition cached (c : call) (body : M nat) : M nat :=
  fun st =>
    if negb (call_hashable c) then (Raise TypeError, st)
    else match memo_lookup c (memo st) with
         | Some a => (Ok a, st)
         | None =>
             match body st with
             | (Ok a, st') => (Ok a, set_memo ((c, a) :: memo st') st')
             | (Raise e, st') => (Raise e, st')
             end
         end.

Definition _HEADERS : list (string * string) :=
  [("User-Agent", "Mozilla/5.0 (X11; Linux x86_64; rv:87.0)     Gecko/20100101 Firefox/87.0")].
Definition _HEADERS_XMLREQUEST : list (string * string) :=
  _HEADERS ++ [("X-Requested-With", "XMLHttpRequest")].
Definition _BASE_URL : string := "https://intranet.tam.ch/".

(** The attributes of an [Intranet] instance that its methods read. *)
Record client : Type := Client {
  self_BASE_URL : string;
  username : string;
  password : string;
  _csrf_token : string;
  user_id : value
}.

(** The loop of [_match_username_to_user_id]: the roster is walked in order
    and the first entry whose lower-cased name is the wanted
    ["lastname, firstname"] gives its [personId].  (The error record written
    before the final [raise] is left out.) *)
Fixpoint match_students (wanted : string) (students : list value) : result value :=
  match students with
  | [] => Raise UserIdNotMatching
  | i :: rest =>
      name ← getattr i "name";
      match name with
      | VStr n =>
          if String.eqb wanted (Str.lower n) then getattr i "personId"
          else match_students wanted rest
      | _ => Raise (AttributeError "lower")
      end
  end.

Definition _match_username_to_user_id (username : string) (students : value)
    : result value :=
  match Str.split "." username with
  | [firstname; lastname] =>
      roster ← py_iter students;
      match_students
        (Str.strip (Str.lower lastname) +:+ ", " +:+ Str.strip (Str.lower firstname))
        roster
  | _ => Raise ValueError
  end.

(** The body of the loop that gathers what an iteration visits. *)
Definition collect (x : value) (acc : list value) : result (list value) := Ok (app acc [x]).

Section Operations.
Variable L : lib.
Variable E : env.

(** [response.json()] *)
Definition response_json (r : http_response) : result value :=
  of_option JSONDecodeError (json_loads L (content r)).

(** [int(time.timestamp())] of the midnight of a date. *)
Definition timestamp (d : Calendar.date) : Z :=
  local_to_utc L (Calendar.timegm_date d).

(** A call of the memoised [_get_mon_and_sun()]. *)
Definition _get_mon_and_sun_call : M (string * string) :=
  fun st =>
    let '(r, m) := _get_mon_and_sun_cached (today E) (mon_sun st) in
    (r, set_mon_sun m st).

(** Lines 291 to 309 of [get_timetable]: the window of the request. *)
Definition timetable_window (start_date end_date : pyarg) : M (value * value) :=
  let start_date := str_arg start_date in
  let end_date := str_arg end_date in
  if String.eqb start_date "0" && String.eqb end_date "0"
  then w ← _get_mon_and_sun_call; mret (VStr (fst w), VStr (snd w))
  else
    match Strptime.strptime start_date with
    | Raise ValueError => raise BadTimestamp
    | Raise e => raise e
    | Ok time =>
        let start_date := timestamp time * 1000 in
        match Strptime.strptime end_date with
        | Raise ValueError => raise BadTimestamp
        | Raise e => raise e
        | Ok time =>
            let end_date := timestamp time * 1000 in
            _ ← (if start_date <? end_date then mret tt
                 else log_record "startdate needs to be before enddate");
            mret (VInt start_date, VInt end_date)
        end
    end.

Section Methods.
Variable self : client.

Definition get (path : string) : http_response :=
  send E (Request GET (self_BASE_URL self +:+ path) _HEADERS []).

Definition post (path : string) (fields : list (string * value)) : http_response :=
  send E (Request POST (self_BASE_URL self +:+ path) _HEADERS_XMLREQUEST fields).

(** The embedded JSON of a list page: [json.loads(m[:-6].replace(...))]
    and its ['data']['data']. *)
Definition extract_grid (text : string) : result (list value) :=
  m ← of_option (AttributeError "group") (Extract.search_absences text);
  j ← of_option JSONDecodeError
        (json_loads L
           (Str.replace Extract.two_backslashes Extract.one_backslash (Str.drop_last 6 m)));
  d ← getitem j "data";
  d' ← getitem d "data";
  py_iter d'.

(** Lines 314 to 336 of [get_timetable]: the request for the window [w]
    and what the loop will visit. *)
Definition timetable_request (uid : value) (w : value * value) : M (list value) :=
  response ← lift (_verify_response_code "ajax-get-timetable"
                     (post "timetable/ajax-get-timetable"
                        [("startDate", fst w); ("endDate", snd w);
                         ("studentId[]", uid); ("holidaysOnly", VStr "0")]));
  data ← lift (response_json response);
  status ← lift (getitem data "status");
  if py_eqb status (VInt 1)
  then d ← lift (getitem data "data"); lift (py_iter d)
  else raise (AssertionError "Bad status code ({})" [status]).

(** What a generator body does before its loop: the items the loop will
    visit. *)
Definition gen_start (b : gen_body) : M (list value) :=
  match b with
  | Body_get_timetable start_date end_date uid timeout =>
      let uid := match uid with VNone => user_id self | _ => uid end in
      w ← timetable_window start_date end_date;
      timetable_request uid w
  | Body_get_absences =>
      response ← lift (_verify_response_code "absence-data" (get "list/index/list/112"));
      lift (extract_grid (Extract.bytes_repr (content response)))
  | Body_get_class_mates =>
      response ← lift (_verify_response_code "get-class-mates" (get "list/index/list/45"));
      lift (extract_grid (Extract.bytes_repr (content response)))
  | Body_get_class_teachers =>
      response ← lift (_verify_response_code "get-class-teachers" (get "list/index/list/46"));
      lift (extract_grid (content response))
  end.

Definition set_obj (a : nat) (o : obj) (st : state) : state :=
  set_heap (<[a := o]> (heap st)) st.

(** [next(g)]: [None] stands for [StopIteration].  A generator runs its
    body up to the next [yield]; one that returned or raised is finished
    for good. *)
Definition gen_next (a : nat) : M (option value) :=
  fun st =>
    match heap st !! a with
    | Some (OGen (Created b)) =>
        match gen_start b st with
        | (Ok [], st') => (Ok None, set_obj a (OGen Closed) st')
        | (Ok (x :: rest), st') => (Ok (Some (munchify x)), set_obj a (OGen (Suspended rest)) st')
        | (Raise e, st') => (Raise e, set_obj a (OGen Closed) st')
        end
    | Some (OGen (Suspended [])) => (Ok None, set_obj a (OGen Closed) st)
    | Some (OGen (Suspended (x :: rest))) =>
        (Ok (Some (munchify x)), set_obj a (OGen (Suspended rest)) st)
    | Some (OGen Closed) => (Ok None, st)
    | _ => (Raise TypeError, st)
    end.

(** Items a suspended generator still holds. *)
Definition pending (a : nat) (st : state) : nat :=
  match heap st !! a with
  | Some (OGen (Suspended rest)) => length rest
  | _ => O
  end.

Fixpoint for_fuel {A} (fuel : nat) (g : nat) (body : value -> A -> result A) (acc : A)
    : M A :=
  match fuel with
  | O => mret acc
  | S f =>
      o ← gen_next g;
      match o with
      | None => mret acc
      | Some x => acc' ← lift (body x acc); for_fuel f g body acc'
      end
  end.

(** [for x in g: acc = body(x, acc)]: [next] and the body take turns
    until [StopIteration]; after the first item the generator tells how
    many more turns there can be. *)
Definition for_in {A} (g : nat) (body : value -> A -> result A) (acc : A) : M A :=
  o ← gen_next g;
  match o return M A with
  | None => mret acc
  | Some x =>
      acc' ← lift (body x acc);
      with_state (fun st => for_fuel (S (pending g st)) g body acc')
  end.

(** [list(g)] *)
Definition list_of_gen (g : nat) : M (list value) := for_in g collect [].

(** The decorated generator functions: a call makes a generator object
    and runs nothing of the body; the cache keeps that object. *)
Definition get_timetable (start_date end_date : pyarg) (uid timeout : value) : M nat :=
  cached (Call_get_timetable start_date end_date uid timeout)
    (alloc (OGen (Created (Body_get_timetable start_date end_date uid timeout)))).

Definition get_absences : M nat :=
  cached Call_get_absences (alloc (OGen (Created Body_get_absences))).

Definition get_class_mates : M nat :=
  cached Call_get_class_mates (alloc (OGen (Created Body_get_class_mates))).

Definition get_class_teachers : M nat :=
  cached Call_get_class_teachers (alloc (OGen (Created Body_get_class_teachers))).

(** [get_resources] *)
Definition get_resources : M nat :=
  cached Call_get_resources
    (response ← lift (_verify_response_code "get-resources"
                        (post "timetable/ajax-get-resources"
                           [("periodId", VStr "75"); ("csrfToken", VStr (_csrf_token self))]));
     match response_json response with
     | Raise JSONDecodeError => raise AuthenticationError
     | Raise e => raise e
     | Ok j => d ← lift (getitem j "data"); alloc (OVal (munchify d))
     end).

(** [a + b] on strings. *)
Definition str_add (a b : value) : result value :=
  match a, b with
  | VStr s, VStr t => Ok (VStr (s +:+ t))
  | _, _ => Raise TypeError
  end.

(** The body of the loop over the classmates in
    [_get_lesson_absence_data]. *)
Definition prepare_name (i : value) (prepared_name : option value) : result (option value) :=
  pid ← getattr i "PersonID";
  if String.eqb (py_str L (user_id self)) (py_str L pid)
  then
    n ← getattr i "Name";
    n' ← str_add n (VStr ",+");
    v ← getattr i "Vorname";
    r ← str_add n' v;
    Ok (Some r)
  else Ok prepared_name.

(** [_get_lesson_absence_data] *)
Definition _get_lesson_absence_data (lesson : value) : M nat :=
  cached (Call__get_lesson_absence_data lesson)
    (g ← get_class_mates;
     prepared_name ← for_in g prepare_name None;
     match prepared_name with
     | None =>
         raise (AssertionError
                  "Couldn't find matching PersonID to user_id             while trying to create prepared_name"
                  [])
     | Some prepared_name =>
         id ← lift (getattr lesson "id");
         courseId ← lift (getattr lesson "courseId");
         lessonDate ← lift (getattr lesson "lessonDate");
         lessonStart ← lift (getattr lesson "lessonStart");
         lessonEnd ← lift (getattr lesson "lessonEnd");
         absence_data ←
           lift (_verify_response_code "absence-data-lesson"
                   (post "timetable/ajax-get-lesson-students-absence-data"
                      [("timetableId", id); ("CourseId", courseId); ("Date", lessonDate);
                       ("StartTime", lessonStart); ("EndTime", lessonEnd);
                       ("Students[0][studentId]", user_id self);
                       ("Students[0][studentName]", prepared_name);
                       ("csrfToken", VStr (_csrf_token self))]));
         match json_loads L
                 (Str.replace Extract.two_backslashes Extract.one_backslash
                    (Str.drop_last 1 (Str.drop_first 2
                       (Extract.bytes_repr (content absence_data))))) with
         | Some j => alloc (OVal j)
         | None => raise WrongWebpageReturned
         end
     end).

Fixpoint each_lesson (lessons : list value) : M (list value) :=
  match lessons with
  | [] => mret []
  | obj :: rest =>
      a ← _get_lesson_absence_data obj;
      v ← deref a;
      vs ← each_lesson rest;
      mret (munchify v :: vs)
  end.

(** [get_lesson_absence_data] *)
Definition get_lesson_absence_data (lesson : value) : M nat :=
  cached (Call_get_lesson_absence_data lesson)
    match lesson with
    | VList lessons => vs ← each_lesson lessons; alloc (OVal (VList vs))
    | _ => _get_lesson_absence_data lesson
    end.

(** [get_additional_homework_info] *)
Definition get_additional_homework_info (lesson : value) : M nat :=
  cached (Call_get_additional_homework_info lesson)
    (courseId ← lift (getattr lesson "courseId");
     response ← lift (_verify_response_code "homework-data"
                        (post "timetable/ajax-get-lesson-home-work-data"
                           [("timetableClassBookId", courseId);
                            ("csrfToken", VStr (_csrf_token self))]));
     j ← lift (response_json response);
     d ← lift (getitem j "data");
     alloc (OVal (munchify d))).

(** [x[0]] *)
Definition first_item (x : value) : result value :=
  match x with
  | VList (v :: _) => Ok v
  | VList [] => Raise IndexError
  | VStr (String c _) => Ok (VStr (String c EmptyString))
  | VStr EmptyString => Raise IndexError
  | VDict _ | VMunch _ => Raise (KeyError "0")
  | _ => Raise TypeError
  end.

(** [set_homework_data]: no decorator. *)
Definition set_homework_data (lesson : value) (title description : string) : M nat :=
  classId ← lift (getattr lesson "classId");
  classId0 ← lift (first_item classId);
  id ← lift (getattr lesson "id");
  response ← lift (_verify_response_code "ajax-save-lesson-home-work-data"
                     (post "timetable/ajax-save-lesson-home-work-data"
                        [("timetableClassBookId", classId0); ("timetableId", id);
                         ("homeWorkData[title]", VStr title);
                         ("homeWorkData[description]", VStr description);
                         ("csrfToken", VStr (_csrf_token self))]));
  j ← lift (response_json response);
  let content := munchify j in
  d ← lift (getattr content "data");
  if negb (py_eqb d (VList []))
  then alloc (OVal content)
  else raise (AssertionError "Missing permissions" []).

(** [get_person_picture]: no decorator, and no check of the status. *)
Definition get_person_picture (studentid : value) : M nat :=
  let studentid := if py_eqb studentid VNone then user_id self else studentid in
  let response := post "list/get-person-picture"
                    [("person", studentid); ("csrfToken", VStr (_csrf_token self))] in
  img ← lift (image_open L (content response));
  alloc (OVal img).

(** [delete_homework_info] *)
Definition delete_homework_info (lesson : value) : M nat :=
  set_homework_data lesson "" "".
End Methods.

(** [Intranet.__init__], up to the attribute [resources]: the handshake. *)
Definition handshake (username password schoolcode : string) : M (client * nat) :=
  let base := _BASE_URL +:+ schoolcode +:+ "/" in
  hash ← lift match _verify_response_code "base-url" (send E (Request GET _BASE_URL [] [])) with
              | Ok response =>
                  match soup_input_value L (content response) with
                  | Some h => Ok h
                  | None => Raise IntranetConnectionError
                  end
              | Raise _ => Raise IntranetConnectionError
              end;
  _ ← lift (_verify_response_code "authentication"
              (send E (Request POST base _HEADERS
                         [("hash", VStr hash); ("loginschool", VStr schoolcode);
                          ("loginuser", VStr username); ("loginpassword", VStr password)])));
  classbook_response ←
    lift (_verify_response_code "classbook_response"
            (send E (Request GET (base +:+ "timetable/classbook") _HEADERS [])));
  csrf ← lift (of_option (AttributeError "group")
                 (Extract.search_csrftoken (content classbook_response)));
  let self := Client base username password csrf VNone in
  resources ← get_resources self;
  mret (self, resources).

(** [Intranet.__init__] *)
Definition Intranet_init (username password schoolcode : string) : M client :=
  '(self, resources) ← handshake username password schoolcode;
  r ← deref resources;
  students ← lift (getattr r "students");
  uid ← lift (_match_username_to_user_id username students);
  mret (Client (self_BASE_URL self) username password (_csrf_token self) uid).
End Operations.

(** ** Vocabulary of the statements *)

(** The text a username [firstname.lastname] is looked up under. *)
Definition wanted_name (firstname lastname : string) : string :=
  Str.strip (Str.lower lastname) +:+ ", " +:+ Str.strip (Str.lower firstname).

(** The roster entry [i] has the wanted name. *)
Definition name_is (wanted : string) (i : value) : bool :=
  match getattr i "name" with
  | Ok (VStr n) => String.eqb wanted (Str.lower n)
  | _ => false
  end.

(** The roster entry [i] has a name that is a text. *)
Definition has_name (i : value) : Prop :=
  exists n, getattr i "name" = Ok (VStr n).

(** A student Record of the roster. *)
Definition student (personId : Z) (name : string) : value :=
  VMunch [("personId", VInt personId); ("name", VStr name)].

(** The page a list operation fetches, and the text in which it looks for
    the embedded JSON. *)
Definition list_page (E : env) (self : client) (b : gen_body) : option (http_response * string) :=
  match b with
  | Body_get_absences =>
      let r := get E self "list/index/list/112" in Some (r, Extract.bytes_repr (content r))
  | Body_get_class_mates =>
      let r := get E self "list/index/list/45" in Some (r, Extract.bytes_repr (content r))
  | Body_get_class_teachers =>
      let r := get E self "list/index/list/46" in Some (r, content r)
  | Body_get_timetable _ _ _ _ => None
  end.

(** A call of a decorated method, by its key. *)
Definition invoke (L : lib) (E : env) (self : client) (c : call) : M nat :=
  match c with
  | Call_get_resources => get_resources L E self
  | Call_get_timetable s e u t => get_timetable s e u t
  | Call_get_absences => get_absences
  | Call__get_lesson_absence_data l => _get_lesson_absence_data L E self l
  | Call_get_lesson_absence_data l => get_lesson_absence_data L E self l
  | Call_get_additional_homework_info l => get_additional_homework_info L E self l
  | Call_get_class_mates => get_class_mates
  | Call_get_class_teachers => get_class_teachers
  end.

(** Two JSON values with the same fields: the same scalars, lists of the
    same length with the same fields at each place, objects (with distinct
    member names, as every [dict] has) that give every name the same fields,
    in whatever order the members come. *)
Inductive same_json : value -> value -> Prop :=
| same_none : same_json VNone VNone
| same_bool b : same_json (VBool b) (VBool b)
| same_int n : same_json (VInt n) (VInt n)
| same_float q : same_json (VFloat q) (VFloat q)
| same_str s : same_json (VStr s) (VStr s)
| same_list l1 l2 : Forall2 same_json l1 l2 -> same_json (VList l1) (VList l2)
| same_dict m1 m2 :
    NoDup (keys m1) -> NoDup (keys m2) ->
    (forall k, option_Forall2 same_json (assoc k m1) (assoc k m2)) ->
    same_json (VDict m1) (VDict m2).

(** The members of a dict, wrapped. *)
Definition munch_members (kvs : list (string * value)) : list (string * value) :=
  map (fun kv => (fst kv, munchify (snd kv))) kvs.

(** A Record, or another value the wrapper returns: [munchify] of a JSON
    value. *)
Definition record (v : value) : Prop :=
  exists j, same_json j j /\ v = munchify j.

(** The arguments of a call are Records (or scalars). *)
Definition call_wf (c : call) : Prop :=
  match c with
  | Call_get_timetable _ _ u t => record u /\ record t
  | Call__get_lesson_absence_data l | Call_get_lesson_absence_data l
  | Call_get_additional_homework_info l => record l
  | _ => True
  end.

(** A time zone whose offset from UTC moves by less than a day. *)
Definition tz_bounded (L : lib) : Prop :=
  forall a b, Z.abs ((a - local_to_utc L a) - (b - local_to_utc L b)) < 86400.

(** ** A portal for the examples *)

Module Demo.

(** A text in double quotes. *)
Definition q (s : string) : string :=
  String Extract.dquote (s +:+ String Extract.dquote EmptyString).

Definition landing_page : string := "<form><input type='hidden' value='h4sh'></form>".
Definition classbook_page : string := "<script>var csrfToken='tok_1';</script>".
Definition login_page : string := "<html><body>Please log in</body></html>".

Definition resources_text : string :=
  "{" +:+ q "data" +:+ ": {" +:+ q "students" +:+ ": [{" +:+ q "personId" +:+ ": 7, "
  +:+ q "name" +:+ ": " +:+ q "Doe, John" +:+ "}]}}".
Definition resources_json : value :=
  VDict [("data", VDict [("students", VList [VDict [("personId", VInt 7);
                                                    ("name", VStr "Doe, John")]])])].

Definition mates_text : string :=
  "{" +:+ q "data" +:+ ":{" +:+ q "data" +:+ ":[{" +:+ q "PersonID" +:+ ":" +:+ q "7" +:+ ","
  +:+ q "Name" +:+ ":" +:+ q "Doe" +:+ "," +:+ q "Vorname" +:+ ":" +:+ q "John" +:+ "},{"
  +:+ q "PersonID" +:+ ":" +:+ q "8" +:+ "," +:+ q "Name" +:+ ":" +:+ q "Roe" +:+ ","
  +:+ q "Vorname" +:+ ":" +:+ q "Jane" +:+ "}]}}".
Definition mate (pid name vorname : string) : value :=
  VDict [("PersonID", VStr pid); ("Name", VStr name); ("Vorname", VStr vorname)].
Definition mates_json : value :=
  VDict [("data", VDict [("data", VList [mate "7" "Doe" "John"; mate "8" "Roe" "Jane"])])].
Definition mates_page : string :=
  "<script>x({gridDataAndConfiguration:" +:+ mates_text +:+ ",front:1})</script>".

Definition lesson_json (id : Z) (title : string) : value :=
  VDict [("id", VInt id); ("courseId", VInt 40); ("classId", VList [VInt 5]);
         ("lessonDate", VStr "2021-12-06"); ("lessonStart", VStr "08:00");
         ("lessonEnd", VStr "08:45"); ("title", VStr title)].

Definition absence_text : string := "{" +:+ q "absent" +:+ ": false}".
Definition absence_json : value := VDict [("absent", VBool false)].

Definition denied_text : string := "{" +:+ q "data" +:+ ": []}".
Definition denied_json : value := VDict [("data", VList [])].
Definition saved_text (title : string) : string :=
  "{" +:+ q "data" +:+ ": {" +:+ q "title" +:+ ": " +:+ q title +:+ "}}".
Definition saved_json (title : string) : value :=
  VDict [("data", VDict [("title", VStr title)])].

(** [json.loads] on the documents of the examples; any other text is taken
    not to be JSON. *)
Definition loads (s : string) : option value :=
  assoc s [ (resources_text, resources_json); (mates_text, mates_json);
            (absence_text, absence_json);
            (denied_text, denied_json); (saved_text "Essay", saved_json "Essay");
            (saved_text "Quiz", saved_json "Quiz") ].

(** [str()] on the scalars of the examples. *)
Definition str_value (v : value) : string :=
  match v with
  | VNone => "None"
  | VBool true => "True"
  | VBool false => "False"
  | VInt n => Decimal.str n
  | VStr s => s
  | _ => "?"
  end.

(** The library of the examples: the landing page has its hidden input,
    no picture is served, and local time is one hour east of UTC. *)
Definition the_lib : lib :=
  Lib loads str_value
    (fun page => if String.eqb page landing_page then Some "h4sh" else None)
    (fun _ => Raise ValueError)
    (fun t => t - 3600).

(** The portal of school [krm]: [homework] is what saving homework
    answers, [lists] what the three list pages show and [absence] what the
    absence data of a lesson is. *)
Definition portal (homework lists absence : string) (r : request) : http_response :=
  let u := url r in
  let at_ (path : string) := String.eqb u ("https://intranet.tam.ch/krm/" +:+ path) in
  if String.eqb u "https://intranet.tam.ch/" then Response 200 landing_page
  else if at_ "" then Response 200 ""
  else if at_ "timetable/classbook" then Response 200 classbook_page
  else if at_ "timetable/ajax-get-resources" then Response 200 resources_text
  else if at_ "timetable/ajax-get-lesson-students-absence-data" then Response 200 absence
  else if at_ "timetable/ajax-save-lesson-home-work-data" then Response 200 homework
  else if at_ "list/index/list/112" || at_ "list/index/list/45" || at_ "list/index/list/46"
       then Response 200 lists
  else Response 404 "".

Definition wednesday : Calendar.date := Calendar.Date (Calendar._ymd2ord 2021 12 8).

Definition the_env : env := Env (portal denied_text mates_page absence_text) wednesday.

(** The portal once the session has expired: every list page and the
    absence data are the login page. *)
Definition expired_env : env := Env (portal denied_text login_page login_page) wednesday.

(** The portal when saving homework answers with the saved entry. *)
Definition saving_env (title : string) : env :=
  Env (portal (saved_text title) mates_page absence_text) wednesday.

(** The client John Doe gets. *)
Definition john : client :=
  Client "https://intranet.tam.ch/krm/" "john.doe" "secret" "tok_1" (VInt 7).

Definition lesson (id : Z) (title : string) : value := munchify (lesson_json id title).

(** The state John Doe's construction leaves: the resources are object 0. *)
Definition st0 : state :=
  State [OVal (munchify (VDict [("students", VList [VDict [("personId", VInt 7);
                                                           ("name", VStr "Doe, John")]])]))]
        [(Call_get_resources, 0%nat)] None [].

End Demo.


(** ** Vocabulary of the further statements *)

(** The generator function behind a decorated call, if it is one. *)
Definition generator_body (c : call) : option gen_body :=
  match c with
  | Call_get_timetable s e u t => Some (Body_get_timetable s e u t)
  | Call_get_absences => Some Body_get_absences
  | Call_get_class_mates => Some Body_get_class_mates
  | Call_get_class_teachers => Some Body_get_class_teachers
  | _ => None
  end.

(** Every character of [s] satisfies [p]. *)
Fixpoint all_chars (p : ascii -> bool) (s : string) : bool :=
  match s with
  | EmptyString => true
  | String c s' => p c && all_chars p s'
  end.

(** The first character of [s], if any, satisfies [p]. *)
Definition starts_with (p : ascii -> bool) (s : string) : bool :=
  match s with
  | EmptyString => false
  | String c _ => p c
  end.

(** A byte that [repr] prints as itself unless it is the quote or the
    backslash. *)
Definition printable (c : ascii) : bool := (32 <=? Str.code c) && (Str.code c <? 127).

(** The two literals of [_REGEX_ABSENCES]. *)
Definition grid_marker : string := "gridDataAndConfiguration:".
Definition grid_closing : string := "},front".

(** The literal of [_REGEX_CSRFTOKEN]. *)
Definition csrf_marker : string := "csrfToken='".

(** A loop body run over the items in order, stopping at the first raise. *)
Fixpoint fold_items {A} (body : value -> A -> result A) (items : list value) (acc : A)
    : result A :=
  match items with
  | [] => Ok acc
  | x :: rest =>
      match body x acc with
      | Ok acc' => fold_items body rest acc'
      | Raise e => Raise e
      end
  end.

(** The classmate [i] carries the caller's id: [str(self.user_id) ==
    str(i.PersonID)]. *)
Definition is_own_entry (L : lib) (self : client) (i : value) : bool :=
  match getattr i "PersonID" with
  | Ok pid => String.eqb (py_str L (user_id self)) (py_str L pid)
  | Raise _ => false
  end.

(** [i.Name + ",+" + i.Vorname] *)
Definition mate_name (i : value) : option value :=
  match getattr i "Name", getattr i "Vorname" with
  | Ok (VStr n), Ok (VStr v) => Some (VStr ((n +:+ ",+") +:+ v))
  | _, _ => None
  end.

(** A classmate Record with the three fields the loop reads. *)
Definition well_formed_mate (i : value) : Prop :=
  exists pid n v,
    getattr i "PersonID" = Ok pid /\ getattr i "Name" = Ok (VStr n)
    /\ getattr i "Vorname" = Ok (VStr v).

(** The message of the [assert] on the caller's name. *)
Definition no_own_entry : exn :=
  AssertionError
    "Couldn't find matching PersonID to user_id             while trying to create prepared_name"
    [].

(** The three requests of [Intranet.__init__] before the resources are
    asked for: the landing page, the login and the classbook page. *)
Definition landing (E : env) : http_response := send E (Request GET _BASE_URL [] []).

Definition login (E : env) (hash username password schoolcode : string) : http_response :=
  send E (Request POST (_BASE_URL +:+ schoolcode +:+ "/") _HEADERS
            [("hash", VStr hash); ("loginschool", VStr schoolcode);
             ("loginuser", VStr username); ("loginpassword", VStr password)]).

Definition classbook (E : env) (schoolcode : string) : http_response :=
  send E (Request GET ((_BASE_URL +:+ schoolcode +:+ "/") +:+ "timetable/classbook")
            _HEADERS []).

(** The answer to the request of [get_resources]. *)
Definition resources_answer (E : env) (self : client) : http_response :=
  post E self "timetable/ajax-get-resources"
    [("periodId", VStr "75"); ("csrfToken", VStr (_csrf_token self))].

(** The methods whose cache key is a lesson. *)
Definition lesson_calls : list (value -> call) :=
  [Call__get_lesson_absence_data; Call_get_lesson_absence_data;
   Call_get_additional_homework_info].

(** * Properties *)

(** ** The library model on examples *)

Example str_examples :
  Decimal.str 0 = "0" /\ Decimal.str 1638741600 = "1638741600" /\ Decimal.str (-7200) = "-7200".
Proof. vm_compute. repeat split. Qed.

Example ymd2ord_examples :
  Calendar._ymd2ord 1 1 1 = 1 /\ Calendar._ymd2ord 1970 1 1 = Calendar._EPOCH_ORD
  /\ Calendar.weekday (Calendar.Date (Calendar._ymd2ord 2021 12 6)) = 0
  /\ Calendar.timegm_date (Calendar.Date (Calendar._ymd2ord 2021 12 6)) = 1638748800.
Proof. vm_compute. repeat split. Qed.

Example strptime_examples :
  Strptime.strptime "05.12.21" = Calendar.mkdate 2021 12 5
  /\ Strptime.strptime "5.12.21" = Calendar.mkdate 2021 12 5
  /\ Strptime.strptime "01.01.69" = Calendar.mkdate 1969 1 1
  /\ Strptime.strptime "29.02.20" = Calendar.mkdate 2020 2 29
  /\ Strptime.strptime "29.02.21" = Raise ValueError
  /\ Strptime.strptime "05.12.2021" = Raise ValueError
  /\ Strptime.strptime "2021-12-05" = Raise ValueError
  /\ Strptime.strptime "0" = Raise ValueError.
Proof. vm_compute. repeat split. Qed.

Example str_method_examples :
  Str.split "." "john.doe" = ["john"; "doe"]
  /\ Str.split "." "johndoe" = ["johndoe"]
  /\ Str.split "." "a.b." = ["a"; "b"; ""]
  /\ Str.strip "  Doe " = "Doe"
  /\ Str.lower "Doe, John" = "doe, john"
  /\ Str.replace "ab" "c" "xababa" = "xcca"
  /\ Str.drop_last 6 "{},front" = "{}".
Proof. vm_compute. repeat split. Qed.

Example extract_examples :
  Extract.bytes_repr "it's" = String "b" (String Extract.dquote ("it's" +:+ String Extract.dquote ""))
  /\ Extract.bytes_repr Demo.login_page = "b'" +:+ Demo.login_page +:+ "'"
  /\ Extract.search_absences "x gridDataAndConfiguration:{a},front:{b},front;" = Some "{a},front:{b},front"
  /\ Extract.search_absences (Extract.bytes_repr Demo.mates_page) = Some (Demo.mates_text +:+ ",front")
  /\ Extract.search_absences Demo.login_page = None
  /\ Extract.search_csrftoken Demo.classbook_page = Some "tok_1".
Proof. vm_compute. repeat split. Qed.

Example py_eqb_examples :
  py_eqb (VInt 1) (VFloat 1) = true
  /\ py_eqb (VBool true) (VInt 1) = true
  /\ py_eqb (VStr "1") (VInt 1) = false
  /\ py_eqb (VMunch [("a", VInt 1); ("b", VNone)]) (VDict [("b", VNone); ("a", VInt 1)]) = true
  /\ py_eqb (VMunch [("a", VInt 1)]) (VMunch [("a", VInt 2)]) = false
  /\ py_eqb (VList []) (VDict []) = false.
Proof. vm_compute. repeat split. Qed.

(** ** Decimal text *)

Module DecimalFacts.
Import Decimal.

Lemma digit_roundtrip d : 0 <= d <= 9 -> digit_of_char (digit_char d) = Some d.
Proof.
  intros H.
  assert (d = 0 \/ d = 1 \/ d = 2 \/ d = 3 \/ d = 4 \/ d = 5 \/ d = 6 \/ d = 7 \/ d = 8 \/ d = 9)
    as Hd by lia.
  repeat (destruct Hd as [-> | Hd]; [reflexivity |]). subst. reflexivity.
Qed.

Lemma digit_char_not_minus d : 0 <= d <= 9 -> Ascii.eqb (digit_char d) "-" = false.
Proof.
  intros H.
  assert (d = 0 \/ d = 1 \/ d = 2 \/ d = 3 \/ d = 4 \/ d = 5 \/ d = 6 \/ d = 7 \/ d = 8 \/ d = 9)
    as Hd by lia.
  repeat (destruct Hd as [-> | Hd]; [reflexivity |]). subst. reflexivity.
Qed.

Lemma parse_digits_chars l acc :
  Forall (fun d => 0 <= d <= 9) l ->
  parse_digits (string_of_chars (map digit_char l)) acc = Some (horner l acc).
Proof.
  intros Hl. revert acc. induction Hl as [| d l Hd _ IH]; intros acc; simpl.
  - reflexivity.
  - rewrite digit_roundtrip by assumption. apply IH.
Qed.

Lemma digits_rev_spec fuel n :
  0 <= n < 2 ^ Z.of_nat (S fuel) ->
  Forall (fun d => 0 <= d <= 9) (digits_rev (S fuel) n)
  /\ horner (rev (digits_rev (S fuel) n)) 0 = n
  /\ digits_rev (S fuel) n <> [].
Proof.
  revert n. induction fuel as [| f IH]; intros n Hn.
  - cbn [digits_rev]. change (2 ^ Z.of_nat 1) with 2 in Hn.
    destruct (Z.ltb_spec n 10) as [Hlt | Hge]; [| lia].
    split; [| split]; [apply Forall_cons; [lia | apply Forall_nil] | simpl; lia | discriminate].
  - remember (S f) as f' eqn:Hf'. cbn [digits_rev].
    destruct (Z.ltb_spec n 10) as [Hlt | Hge].
    + split; [| split]; [apply Forall_cons; [lia | apply Forall_nil] | simpl; lia | discriminate].
    + assert (0 <= n / 10 < 2 ^ Z.of_nat f') as Hq.
      { split; [apply Z.div_pos; lia |].
        apply Z.div_lt_upper_bound; [lia |].
        rewrite Nat2Z.inj_succ, Z.pow_succ_r in Hn by lia. lia. }
      subst f'. destruct (IH _ Hq) as (Hall & Hval & _).
      split; [| split].
      * apply Forall_cons; [| exact Hall]. pose proof (Z.mod_pos_bound n 10). lia.
      * cbn [rev]. unfold horner in *. rewrite fold_left_app. cbn [fold_left]. rewrite Hval.
        pose proof (Z.div_mod n 10). lia.
      * discriminate.
Qed.

Lemma digits_spec n :
  0 <= n ->
  Forall (fun d => 0 <= d <= 9) (digits n) /\ horner (digits n) 0 = n /\ digits n <> [].
Proof.
  intros Hn. unfold digits.
  assert (0 <= n < 2 ^ Z.of_nat (S (Z.to_nat (Z.log2 n)))) as Hb.
  { split; [assumption |].
    rewrite Nat2Z.inj_succ, Z2Nat.id by apply Z.log2_nonneg.
    destruct (Z.eq_dec n 0) as [-> | Hne]; [reflexivity |].
    apply Z.log2_spec. lia. }
  destruct (digits_rev_spec _ _ Hb) as (Hall & Hval & Hne).
  split; [| split].
  - apply Forall_rev. exact Hall.
  - exact Hval.
  - intros Hnil. apply Hne. apply (f_equal (@rev Z)) in Hnil.
    rewrite rev_involutive in Hnil. exact Hnil.
Qed.

Lemma horner_app l1 l2 acc : horner (l1 ++ l2) acc = horner l2 (horner l1 acc).
Proof. apply fold_left_app. Qed.

Lemma parse_digits_app s t acc :
  parse_digits (s +:+ t) acc =
  match parse_digits s acc with Some a => parse_digits t a | None => None end.
Proof.
  revert acc. induction s as [| c s IH]; intros acc; [reflexivity |].
  change (String c s +:+ t) with (String c (s +:+ t)). simpl.
  destruct (digit_of_char c); [apply IH | reflexivity].
Qed.

Lemma append_cons c s t : String c s +:+ t = String c (s +:+ t).
Proof. reflexivity. Qed.

Lemma int_digits_app l t :
  Forall (fun d => 0 <= d <= 9) l -> l <> [] ->
  int (string_of_chars (map digit_char l) +:+ t)
  = of_option ValueError (parse_digits t (horner l 0)).
Proof.
  intros Hall Hne. destruct l as [| d l]; [congruence |].
  pose proof (parse_digits_app (string_of_chars (map digit_char (d :: l))) t 0) as Happ.
  rewrite parse_digits_chars in Happ by exact Hall.
  cbn [map string_of_chars fold_right] in *. rewrite append_cons in *.
  unfold int. rewrite digit_char_not_minus by (inversion Hall; assumption).
  rewrite Happ. reflexivity.
Qed.

Lemma int_neg_digits_app l t :
  Forall (fun d => 0 <= d <= 9) l -> l <> [] ->
  int (String "-" (string_of_chars (map digit_char l) +:+ t))
  = of_option ValueError (Z.opp <$> parse_digits t (horner l 0)).
Proof.
  intros Hall Hne. destruct l as [| d l]; [congruence |].
  pose proof (parse_digits_app (string_of_chars (map digit_char (d :: l))) t 0) as Happ.
  rewrite parse_digits_chars in Happ by exact Hall.
  cbn [map string_of_chars fold_right] in *. rewrite append_cons in *.
  unfold int. change (Ascii.eqb "-" "-") with true. cbv iota.
  rewrite Happ. reflexivity.
Qed.

(** Digits appended to the text of a number: [int] reads the number
    shifted by them. *)
Lemma int_str_app n t :
  int (str n +:+ t)
  = of_option ValueError
      ((if n <? 0 then Z.opp else id) <$> parse_digits t (Z.abs n)).
Proof.
  unfold str. destruct (Z.ltb_spec n 0) as [Hneg | Hpos].
  - destruct (digits_spec (- n)) as (Hall & Hval & Hne); [lia |].
    rewrite append_cons, int_neg_digits_app, Hval by assumption.
    replace (Z.abs n) with (- n) by lia. reflexivity.
  - destruct (digits_spec n) as (Hall & Hval & Hne); [lia |].
    rewrite int_digits_app, Hval by assumption.
    replace (Z.abs n) with n by lia. destruct (parse_digits t n); reflexivity.
Qed.

(** Three zeros appended to the text of a number multiply it by 1000. *)
Lemma int_str_000 n : int (str n +:+ "000") = Ok (n * 1000).
Proof.
  rewrite int_str_app. cbn [parse_digits].
  change (digit_of_char "0") with (Some 0).
  destruct (Z.ltb_spec n 0); cbn -[Z.mul Z.add Z.abs]; f_equal; lia.
Qed.

Lemma append_empty_r s : s +:+ "" = s.
Proof. induction s as [| c s IH]; [reflexivity | now rewrite append_cons, IH]. Qed.

(** [int] reads back what [str] writes. *)
Lemma int_str n : int (str n) = Ok n.
Proof.
  rewrite <- (append_empty_r (str n)), int_str_app. cbn -[Z.ltb Z.abs].
  destruct (Z.ltb_spec n 0); cbn -[Z.abs]; f_equal; lia.
Qed.

Lemma str_inj n m : str n = str m -> n = m.
Proof.
  intros H. apply (f_equal int) in H. rewrite !int_str in H. congruence.
Qed.

End DecimalFacts.

(** ** The default window *)

Section DefaultWindow.

Lemma get_mon_and_sun_value today :
  let m := monday_midnight_ms 7200 today in
  exists prev_mon next_sun,
    _get_mon_and_sun today = Ok (prev_mon, next_sun)
    /\ Decimal.int prev_mon = Ok m
    /\ Decimal.int next_sun = Ok ((m + 691200) * 1000).
Proof.
  intros m. unfold _get_mon_and_sun.
  set (secs := Calendar.timegm_date _ - 7200).
  assert (secs * 1000 = m) as Hm.
  { unfold secs, m, monday_midnight_ms, Calendar.timegm_date, Calendar.sub_days.
    cbn [Calendar.toordinal]. lia. }
  rewrite DecimalFacts.int_str_000. cbn [mbind result_bind rbind].
  eexists _, _. split; [reflexivity |]. split.
  - rewrite DecimalFacts.int_str_000. congruence.
  - rewrite DecimalFacts.int_str_000. rewrite Hm. reflexivity.
Qed.

(** C1 (the code departs from the claim): whatever the date, the first
    text of [_get_mon_and_sun] reads as the millisecond timestamp of the
    week's Monday at 00:00 (two hours east of UTC), but the second reads as
    that number plus 691200, times 1000, which is never the millisecond
    timestamp of the end of the week's Sunday. *)
Theorem get_mon_and_sun_end_is_not_sunday today :
  exists prev_mon next_sun,
    _get_mon_and_sun today = Ok (prev_mon, next_sun)
    /\ Decimal.int prev_mon = Ok (monday_midnight_ms 7200 today)
    /\ Decimal.int next_sun = Ok ((monday_midnight_ms 7200 today + 691200) * 1000)
    /\ Decimal.int next_sun <> Ok (sunday_end_ms 7200 today).
Proof.
  destruct (get_mon_and_sun_value today) as (p & n & Hrun & Hp & Hn).
  exists p, n. repeat split; try assumption.
  rewrite Hn. intros Heq. injection Heq as Heq.
  unfold sunday_end_ms, monday_midnight_ms in Heq. lia.
Qed.

(** The week of Wednesday 2021-12-08: the window starts at
    2021-12-05T22:00:00Z, and its end is not 2021-12-12T22:00:00Z
    (1639346400000). *)
Example get_mon_and_sun_2021_12_08 :
  _get_mon_and_sun (Calendar.Date (Calendar._ymd2ord 2021 12 8))
  = Ok ("1638741600000", "1638742291200000").
Proof. vm_compute. reflexivity. Qed.

(** The memo of [_get_mon_and_sun]: once filled, the date of later calls
    is not read any more. *)
Lemma get_mon_and_sun_cached_fixed today today' memo w memo' :
  _get_mon_and_sun_cached today memo = (Ok w, memo') ->
  _get_mon_and_sun_cached today' memo' = (Ok w, memo').
Proof.
  unfold _get_mon_and_sun_cached. destruct memo as [w0 |].
  - intros [= <- <-]. reflexivity.
  - destruct (_get_mon_and_sun today) as [w1 | e]; intros [= <- <-]. reflexivity.
Qed.

End DefaultWindow.

(** ** The Response Validator *)

(** C4 (counterexample): a 404 answer does not make the check fail with
    [BadStatusCode] carrying the status and the label. *)
Lemma verify_404_is_not_BadStatusCode :
  _verify_response_code "get-resources" (Response 404 "Not Found")
  = Raise (AssertionError "Error {}" [VInt 404])
  /\ _verify_response_code "get-resources" (Response 404 "Not Found")
     <> Raise (BadStatusCode 404 "get-resources").
Proof. split; [reflexivity | discriminate]. Qed.

(** C4 (amended): the check returns the response it was given when the status
    is outside 400..599, and otherwise fails with an [AssertionError] whose
    message carries the status code; the label has no part in the outcome. *)
Theorem verify_response_code_asserts (name : string) (response : http_response) :
  (if decide (400 <= status_code response < 600)
   then _verify_response_code name response
        = Raise (AssertionError "Error {}" [VInt (status_code response)])
   else _verify_response_code name response = Ok response)
  /\ (forall name', _verify_response_code name' response = _verify_response_code name response).
Proof.
  split; [| reflexivity].
  unfold _verify_response_code, response_ok.
  destruct (decide _) as [H | H];
    destruct (Z.leb_spec 400 (status_code response));
    destruct (Z.ltb_spec (status_code response) 600); simpl; try reflexivity; lia.
Qed.

(** ** Identity resolution *)

Section Identity.

Lemma match_students_find wanted roster :
  Forall has_name roster ->
  match_students wanted roster =
  match List.find (name_is wanted) roster with
  | Some i => getattr i "personId"
  | None => Raise UserIdNotMatching
  end.
Proof.
  induction 1 as [| i roster [n Hn] _ IH]; [reflexivity |].
  cbn [match_students List.find]. unfold name_is at 1. rewrite Hn.
  cbn [mbind result_bind rbind].
  destruct (String.eqb wanted (Str.lower n)); [reflexivity | exact IH].
Qed.

Lemma getattr_not_UserIdNotMatching i k : getattr i k <> Raise UserIdNotMatching.
Proof.
  destruct i; simpl; try discriminate; destruct (assoc k kvs); discriminate.
Qed.

(** C5 (amended): for a username [firstname.lastname] and a roster whose
    entries have names, identity resolution gives the [personId] of the
    first entry whose lower-cased name is ["lastname, firstname"], however
    many entries match, and it fails with [UserIdNotMatching] exactly when
    no entry matches. *)
Theorem match_username_takes_first_match
    (username firstname lastname : string) (roster : list value) :
  Str.split "." username = [firstname; lastname] ->
  Forall has_name roster ->
  _match_username_to_user_id username (VList roster)
  = match List.find (name_is (wanted_name firstname lastname)) roster with
    | Some i => getattr i "personId"
    | None => Raise UserIdNotMatching
    end
  /\ (_match_username_to_user_id username (VList roster) = Raise UserIdNotMatching
      <-> List.find (name_is (wanted_name firstname lastname)) roster = None).
Proof.
  intros Hsplit Hnames.
  assert (_match_username_to_user_id username (VList roster)
          = match List.find (name_is (wanted_name firstname lastname)) roster with
            | Some i => getattr i "personId"
            | None => Raise UserIdNotMatching
            end) as Heq.
  { unfold _match_username_to_user_id. rewrite Hsplit.
    cbn [py_iter mbind result_bind rbind].
    apply match_students_find. exact Hnames. }
  split; [exact Heq |]. rewrite Heq.
  destruct (List.find _ roster) as [i |].
  - split; [| discriminate]. intros H. now apply getattr_not_UserIdNotMatching in H.
  - split; reflexivity.
Qed.

(** C5 (counterexample): two entries of the roster match ["john.doe"], and
    resolution does not fail: it answers with the first of them. *)
Lemma match_username_two_matches :
  let roster := [student 1 "Doe, John"; student 2 "doe, john"] in
  length (List.filter (name_is (wanted_name "john" "doe")) roster) = 2%nat
  /\ _match_username_to_user_id "john.doe" (VList roster) = Ok (VInt 1).
Proof. vm_compute. split; reflexivity. Qed.

Lemma match_username_takes_first_match_witness :
  _match_username_to_user_id "john.doe"
    (VList [student 3 "Roe, Jane"; student 1 "Doe, John"; student 2 "doe, john"])
  = Ok (VInt 1).
Proof.
  refine (proj1 (match_username_takes_first_match "john.doe" "john" "doe"
                   [student 3 "Roe, Jane"; student 1 "Doe, John"; student 2 "doe, john"]
                   _ _)).
  - reflexivity.
  - repeat constructor; eexists; reflexivity.
Defined.

Lemma split_length sep s : length (Str.split sep s) = S (Str.count sep s).
Proof.
  induction s as [| c s IH]; [reflexivity |].
  cbn [Str.split Str.count]. destruct (Ascii.eqb c sep).
  - cbn [length]. rewrite IH. reflexivity.
  - destruct (Str.split sep s) as [| p ps]; [discriminate |].
    cbn [length] in *. lia.
Qed.

Lemma match_username_ValueError username students :
  Str.count "." username <> 1%nat ->
  _match_username_to_user_id username students = Raise ValueError.
Proof.
  intros Hdots. unfold _match_username_to_user_id.
  pose proof (split_length "." username) as Hlen.
  destruct (Str.split "." username) as [| a [| b [| c l]]]; try reflexivity.
  cbn [length] in Hlen. lia.
Qed.

End Identity.

(** ** Construction *)

(** Unfolding the binds of the two monads. *)
Ltac unfold_M :=
  unfold mbind, M_bind, result_bind, rbind, mret, M_ret, result_ret, lift, raise, with_state,
    of_option in *;
  cbv beta in *.

(** Case analysis on every scrutinee, to see which exceptions can come out. *)
Ltac split_matches :=
  repeat match goal with
         | H : (_, _) = (_, _) |- _ => injection H as ? ?; subst
         | H : Ok _ = Ok _ |- _ => injection H as ?; subst
         | H : Raise _ = Raise _ |- _ => injection H as ?; subst
         | H : context [match ?x with _ => _ end] |- _ => destruct x eqn:?; try discriminate
         | H : context [if ?x then _ else _] |- _ => destruct x eqn:?; try discriminate
         end.

Section Construction.
Variable L : lib.
Variable E : env.

Lemma verify_raises name response e :
  _verify_response_code name response = Raise e -> exists m a, e = AssertionError m a.
Proof.
  unfold _verify_response_code. destruct (response_ok response); [discriminate |].
  intros [= <-]. eauto.
Qed.

Lemma getitem_not_UserIdNotMatching x k : getitem x k <> Raise UserIdNotMatching.
Proof.
  destruct x; simpl; try discriminate; destruct (assoc k kvs); discriminate.
Qed.

Lemma handshake_not_UserIdNotMatching username password schoolcode st :
  fst (handshake L E username password schoolcode st) <> Raise UserIdNotMatching.
Proof.
  intros H.
  unfold handshake, get_resources, cached, alloc, response_json, post,
    _verify_response_code, getitem in H.
  unfold_M. simpl in H.
  split_matches; simpl in *; congruence.
Qed.

(** C10: a username that does not hold exactly one dot makes identity
    resolution fail with [ValueError] whatever the roster is, so that a
    construction that gets as far as identity resolution fails with
    [ValueError]; no construction with such a username succeeds or fails
    with [UserIdNotMatching]. *)
Theorem init_needs_exactly_one_dot (username password schoolcode : string) (st : state) :
  Str.count "." username <> 1%nat ->
  (forall students, _match_username_to_user_id username students = Raise ValueError)
  /\ Intranet_init L E username password schoolcode st
     = ('(self, resources) ← handshake L E username password schoolcode;
        r ← deref resources;
        _ ← lift (getattr r "students");
        raise ValueError) st
  /\ fst (Intranet_init L E username password schoolcode st) <> Raise UserIdNotMatching
  /\ (forall self, fst (Intranet_init L E username password schoolcode st) <> Ok self).
Proof.
  intros Hdots.
  assert (forall students, _match_username_to_user_id username students = Raise ValueError)
    as Hmatch by (intros; now apply match_username_ValueError).
  assert (Intranet_init L E username password schoolcode st
          = ('(self, resources) ← handshake L E username password schoolcode;
             r ← deref resources;
             _ ← lift (getattr r "students");
             raise ValueError) st) as Hrun.
  { unfold Intranet_init. unfold_M.
    destruct (handshake L E username password schoolcode st) as [[[self res] | e] st1];
      [| reflexivity].
    destruct (deref res st1) as [[r | e] st2]; [| reflexivity].
    destruct (getattr r "students") as [students | e]; [| reflexivity].
    rewrite Hmatch. reflexivity. }
  split; [exact Hmatch |]. split; [exact Hrun |].
  assert (exists e, fst (Intranet_init L E username password schoolcode st) = Raise e
                    /\ e <> UserIdNotMatching) as (e & He & Hne).
  { rewrite Hrun. pose proof (handshake_not_UserIdNotMatching username password schoolcode st)
      as Hhs. unfold_M.
    destruct (handshake L E username password schoolcode st) as [[[self res] | e] st1].
    - destruct (deref res st1) as [[r | e] st2] eqn:Hderef.
      + destruct (getattr r "students") as [students | e] eqn:Hattr.
        * eexists; split; [reflexivity | discriminate].
        * exists e. split; [reflexivity |]. intros ->.
          now apply getattr_not_UserIdNotMatching in Hattr.
      + exists e. split; [reflexivity |]. intros ->.
        unfold deref in Hderef. destruct (heap st1 !! res) as [[|] |]; discriminate.
    - exists e. split; [reflexivity |]. intros ->. now apply Hhs. }
  rewrite He. split; [congruence | discriminate].
Qed.
End Construction.

Lemma init_needs_exactly_one_dot_witness :
  _match_username_to_user_id "johndoe" (VList [student 7 "Doe, John"]) = Raise ValueError
  /\ fst (Intranet_init Demo.the_lib Demo.the_env "johndoe" "secret" "krm" initial_state)
     = Raise ValueError.
Proof.
  assert (Str.count "." "johndoe" <> 1%nat) as Hdots by (vm_compute; lia).
  destruct (init_needs_exactly_one_dot Demo.the_lib Demo.the_env "johndoe" "secret" "krm"
              initial_state Hdots) as (Hmatch & Hrun & _).
  split; [apply Hmatch |]. rewrite Hrun. vm_compute. reflexivity.
Defined.

(** With one dot the same construction goes through. *)
Example init_john :
  Intranet_init Demo.the_lib Demo.the_env "john.doe" "secret" "krm" initial_state
  = (Ok Demo.john, Demo.st0).
Proof. vm_compute. reflexivity. Qed.

(** ** Generators *)

Ltac case_matches :=
  repeat match goal with
         | |- context [match ?x with _ => _ end] => destruct x eqn:?
         | |- context [if ?x then _ else _] => destruct x eqn:?
         end.

Section Generators.
Variable L : lib.
Variable E : env.
Variable self : client.

Lemma timetable_window_heap s e st :
  heap (snd (timetable_window L E s e st)) = heap st.
Proof.
  unfold timetable_window, _get_mon_and_sun_call, log_record. unfold_M.
  destruct (_ && _).
  - destruct (_get_mon_and_sun_cached (today E) (mon_sun st)) as [[w | e0] m]; reflexivity.
  - destruct (Strptime.strptime (str_arg s)) as [d1 | []]; try reflexivity.
    destruct (Strptime.strptime (str_arg e)) as [d2 | []]; try reflexivity.
    destruct (_ <? _); reflexivity.
Qed.

(** The body of a generator allocates nothing. *)
Lemma gen_start_heap b st : heap (snd (gen_start L E self b st)) = heap st.
Proof.
  destruct b as [s e u t | | |]; unfold gen_start.
  - pose proof (timetable_window_heap s e st) as Hw. unfold timetable_request. unfold_M.
    destruct (timetable_window L E s e st) as [[w | e0] st1]; simpl in Hw;
      case_matches; simpl; congruence.
  - unfold_M. case_matches; reflexivity.
  - unfold_M. case_matches; reflexivity.
  - unfold_M. case_matches; reflexivity.
Qed.

Lemma set_obj_lookup a o st :
  (a < length (heap st))%nat -> heap (set_obj a o st) !! a = Some o.
Proof. intros H. unfold set_obj. simpl. now apply list_lookup_insert_eq. Qed.

Lemma set_obj_twice a o o' st : set_obj a o (set_obj a o' st) = set_obj a o st.
Proof. unfold set_obj, set_heap. simpl. now rewrite list_insert_insert_eq. Qed.

(** From its [yield], a generator gives the rest of its items and ends. *)
Lemma for_fuel_suspended g rest acc st :
  heap st !! g = Some (OGen (Suspended rest)) ->
  for_fuel L E self (S (length rest)) g collect acc st
  = (Ok (acc ++ map munchify rest)%list, set_obj g (OGen Closed) st).
Proof.
  revert acc st. induction rest as [| x rest IH]; intros acc st Hg.
  - cbn [for_fuel length]. unfold_M. unfold gen_next. rewrite Hg.
    cbn [map]. now rewrite app_nil_r.
  - cbn [length]. change (for_fuel L E self (S (S (length rest))) g collect acc st)
      with ((o ← gen_next L E self g;
             match o with
             | None => mret acc
             | Some x => acc' ← lift (collect x acc);
                         for_fuel L E self (S (length rest)) g collect acc'
             end) st).
    unfold_M. unfold gen_next at 1. rewrite Hg. unfold collect at 1.
    rewrite IH.
    + rewrite set_obj_twice. cbn [map]. now rewrite <- app_assoc.
    + apply set_obj_lookup. eapply lookup_lt_Some. exact Hg.
Qed.

(** A pass over a generator that comes to its end leaves it finished. *)
Lemma list_of_gen_closes g st records st1 :
  list_of_gen L E self g st = (Ok records, st1) ->
  heap st1 !! g = Some (OGen Closed).
Proof.
  unfold list_of_gen, for_in. unfold_M. unfold gen_next.
  destruct (heap st !! g) as [[[b | rest |] | v] |] eqn:Hg; try discriminate.
  - pose proof (gen_start_heap b st) as Hheap.
    assert (g < length (heap st))%nat as Hlt by (eapply lookup_lt_Some; exact Hg).
    destruct (gen_start L E self b st) as [[[| x rest] | e] st'] eqn:Hstart;
      simpl in Hheap; try discriminate.
    + intros [= <- <-]. apply set_obj_lookup. congruence.
    + unfold collect at 1. unfold pending. rewrite set_obj_lookup by congruence.
      rewrite for_fuel_suspended by (apply set_obj_lookup; congruence).
      intros [= <- <-]. rewrite set_obj_twice. apply set_obj_lookup. congruence.
  - assert (g < length (heap st))%nat as Hlt by (eapply lookup_lt_Some; exact Hg).
    destruct rest as [| x rest].
    + intros [= <- <-]. now apply set_obj_lookup.
    + unfold collect at 1. unfold pending. rewrite set_obj_lookup by assumption.
      rewrite for_fuel_suspended by (now apply set_obj_lookup).
      intros [= <- <-]. rewrite set_obj_twice. now apply set_obj_lookup.
  - intros [= <- <-]. exact Hg.
Qed.

Lemma list_of_gen_closed g st :
  heap st !! g = Some (OGen Closed) -> list_of_gen L E self g st = (Ok [], st).
Proof.
  intros Hg. unfold list_of_gen, for_in. unfold_M. unfold gen_next. now rewrite Hg.
Qed.

(** C9 (the code departs from the claim): once a pass over a generator has
    come to its end, a second pass over it yields nothing: the Records of
    the first pass do not come again. *)
Theorem second_pass_yields_nothing (g : nat) (st st1 : state) (records : list value) :
  list_of_gen L E self g st = (Ok records, st1) ->
  list_of_gen L E self g st1 = (Ok [], st1).
Proof.
  intros H. apply list_of_gen_closed. eapply list_of_gen_closes. exact H.
Qed.

End Generators.

(** The classmates of the example: the first pass gives the two Records of
    the page, the second none. *)
Lemma second_pass_yields_nothing_witness :
  let st1 := snd (get_class_mates Demo.st0) in
  let pass := list_of_gen Demo.the_lib Demo.the_env Demo.john 1 st1 in
  fst pass = Ok [munchify (Demo.mate "7" "Doe" "John"); munchify (Demo.mate "8" "Roe" "Jane")]
  /\ list_of_gen Demo.the_lib Demo.the_env Demo.john 1 (snd pass) = (Ok [], snd pass).
Proof.
  cbv zeta. split; [vm_compute; reflexivity |].
  apply (second_pass_yields_nothing Demo.the_lib Demo.the_env Demo.john 1
           (snd (get_class_mates Demo.st0)) _
           [munchify (Demo.mate "7" "Doe" "John"); munchify (Demo.mate "8" "Roe" "Jane")]).
  vm_compute. reflexivity.
Defined.

(** The code itself walks the cached classmates once per lesson: the lookup
    of the caller's name finds it for the first lesson and nothing for the
    second. *)
Example lesson_absence_data_second_lesson :
  let '(r1, st1) := _get_lesson_absence_data Demo.the_lib Demo.the_env Demo.john
                      (Demo.lesson 1 "Maths") Demo.st0 in
  r1 = Ok 2%nat
  /\ fst (_get_lesson_absence_data Demo.the_lib Demo.the_env Demo.john
            (Demo.lesson 2 "Physics") st1)
     = Raise (AssertionError
                "Couldn't find matching PersonID to user_id             while trying to create prepared_name"
                []).
Proof. vm_compute. split; reflexivity. Qed.

(** ** The Extraction Layer *)

Section WrongPage.
Variable L : lib.
Variable E : env.
Variable self : client.

(** C6 (the code departs from the claim): when the page of a list
    operation comes with a success status and the pattern does not match
    it, the first advance of the operation's generator fails with the
    [AttributeError] of [None.group()], not with [WrongWebpageReturned]. *)
Theorem list_operation_on_wrong_page
    (b : gen_body) (g : nat) (st : state) (r : http_response) (text : string) :
  list_page E self b = Some (r, text) ->
  response_ok r = true ->
  Extract.search_absences text = None ->
  heap st !! g = Some (OGen (Created b)) ->
  gen_next L E self g st = (Raise (AttributeError "group"), set_obj g (OGen Closed) st).
Proof.
  intros Hpage Hok Hsearch Hg. unfold gen_next. rewrite Hg.
  destruct b as [s e u t | | |]; [discriminate | | |];
    injection Hpage as <- <-;
    unfold gen_start, extract_grid, _verify_response_code; rewrite Hok; unfold_M;
    rewrite Hsearch; reflexivity.
Qed.
End WrongPage.

Lemma list_operation_on_wrong_page_witness :
  let st1 := snd (get_absences Demo.st0) in
  gen_next Demo.the_lib Demo.expired_env Demo.john 1 st1
  = (Raise (AttributeError "group"), set_obj 1 (OGen Closed) st1).
Proof.
  cbv zeta.
  apply (list_operation_on_wrong_page Demo.the_lib Demo.expired_env Demo.john
           Body_get_absences 1 (snd (get_absences Demo.st0)) _ _ eq_refl).
  - vm_compute. reflexivity.
  - vm_compute. reflexivity.
  - vm_compute. reflexivity.
Defined.

(** The sibling path: the absence data of a lesson turns a body that is not
    JSON into [WrongWebpageReturned]. *)
Example lesson_absence_data_on_wrong_page :
  fst (_get_lesson_absence_data Demo.the_lib
         (Env (Demo.portal Demo.denied_text Demo.mates_page Demo.login_page) Demo.wednesday)
         Demo.john (Demo.lesson 1 "Maths") Demo.st0)
  = Raise WrongWebpageReturned.
Proof. vm_compute. reflexivity. Qed.

(** ** The Record wrapper *)

Section ValueInduction.
Variable P : value -> Prop.
Hypothesis HNone : P VNone.
Hypothesis HBool : forall b, P (VBool b).
Hypothesis HInt : forall n, P (VInt n).
Hypothesis HFloat : forall q, P (VFloat q).
Hypothesis HStr : forall s, P (VStr s).
Hypothesis HList : forall l, Forall P l -> P (VList l).
Hypothesis HDict : forall kvs, Forall (fun kv => P (snd kv)) kvs -> P (VDict kvs).
Hypothesis HMunch : forall kvs, Forall (fun kv => P (snd kv)) kvs -> P (VMunch kvs).

(** Induction on a value that reaches inside its lists and members. *)
Lemma value_nested_ind : forall v, P v.
Proof.
  exact (fix IH (v : value) : P v :=
           let members :=
             fix go (kvs : list (string * value)) : Forall (fun kv => P (snd kv)) kvs :=
               match kvs with
               | [] => Forall_nil _
               | (k, x) :: r => Forall_cons _ (k, x) r (IH x) (go r)
               end in
           match v with
           | VNone => HNone
           | VBool b => HBool b
           | VInt n => HInt n
           | VFloat q => HFloat q
           | VStr s => HStr s
           | VList l =>
               HList l ((fix go (l : list value) : Forall P l :=
                           match l with
                           | [] => Forall_nil _
                           | x :: r => Forall_cons _ x r (IH x) (go r)
                           end) l)
           | VDict kvs => HDict kvs (members kvs)
           | VMunch kvs => HMunch kvs (members kvs)
           end).
Qed.
End ValueInduction.

Section Records.

Lemma keys_munch_members kvs : keys (munch_members kvs) = keys kvs.
Proof. unfold keys, munch_members. rewrite map_map. reflexivity. Qed.

Lemma assoc_munch_members k kvs :
  assoc k (munch_members kvs) = munchify <$> assoc k kvs.
Proof.
  induction kvs as [| [k' x] kvs IH]; [reflexivity |].
  cbn [munch_members map assoc fst snd]. destruct (String.eqb k k'); [reflexivity | exact IH].
Qed.

Lemma assoc_None k (kvs : list (string * value)) : assoc k kvs = None <-> ~ In k (keys kvs).
Proof.
  induction kvs as [| [k' x] kvs IH]; [simpl; tauto |].
  cbn [assoc keys map fst In]. destruct (String.eqb_spec k k') as [-> | Hne].
  - split; [discriminate | intros H; exfalso; apply H; now left].
  - rewrite IH. unfold keys. split; [intros H [Heq | Hin]; [congruence | tauto] | tauto].
Qed.

Lemma assoc_In k x (kvs : list (string * value)) :
  NoDup (keys kvs) -> In (k, x) kvs -> assoc k kvs = Some x.
Proof.
  induction kvs as [| [k' x'] kvs IH]; [intros _ []|].
  cbn [keys map fst]. intros Hnd Hin. apply NoDup_cons_iff in Hnd as [Hnotin Hnd].
  cbn [assoc]. destruct Hin as [[= -> ->] | Hin].
  - now rewrite String.eqb_refl.
  - destruct (String.eqb_spec k k') as [-> | Hne]; [| now apply IH].
    exfalso. apply Hnotin. apply (in_map fst) in Hin. exact Hin.
Qed.

Lemma py_eqb_lists la lb :
  Forall2 (fun x y => py_eqb x y = true) la lb -> py_eqb (VList la) (VList lb) = true.
Proof.
  induction 1 as [| x y la lb Hxy _ IH]; [reflexivity |].
  simpl in *. now rewrite Hxy, IH.
Qed.

Lemma py_eqb_munches a b :
  length a = length b ->
  (forall k x, In (k, x) a -> exists y, assoc k b = Some y /\ py_eqb x y = true) ->
  py_eqb (VMunch a) (VMunch b) = true.
Proof.
  intros Hlen Hall. cbn [py_eqb]. rewrite Hlen, Nat.eqb_refl. cbn [andb].
  clear Hlen. induction a as [| [k x] a IH]; [reflexivity |].
  destruct (Hall k x) as (y & Hy & Hxy); [now left |].
  rewrite Hy, Hxy. cbn [andb]. apply IH. intros k' x' Hin. apply Hall. now right.
Qed.

Lemma same_json_keys m1 m2 :
  NoDup (keys m1) -> NoDup (keys m2) ->
  (forall k, option_Forall2 same_json (assoc k m1) (assoc k m2)) ->
  length m1 = length m2 /\ (list_to_set (keys m1) : gset string) = list_to_set (keys m2).
Proof.
  intros Hnd1 Hnd2 Hsame.
  assert (forall k, In k (keys m1) <-> In k (keys m2)) as Hkeys.
  { intros k. specialize (Hsame k).
    pose proof (assoc_None k m1) as H1. pose proof (assoc_None k m2) as H2.
    destruct Hsame as [x y _ |].
    - split; intros _.
      + destruct (in_dec string_dec k (keys m2)) as [|Hn]; [assumption |].
        apply H2 in Hn. discriminate.
      + destruct (in_dec string_dec k (keys m1)) as [|Hn]; [assumption |].
        apply H1 in Hn. discriminate.
    - split; intros Hin; exfalso; [apply (proj1 H1) | apply (proj1 H2)]; auto. }
  split.
  - rewrite <- (length_map fst m1), <- (length_map fst m2).
    apply Permutation_length.
    apply Permutation.NoDup_Permutation; [exact Hnd1 | exact Hnd2 | exact Hkeys].
  - apply set_eq. intros k. rewrite !elem_of_list_to_set, !list_elem_of_In. apply Hkeys.
Qed.

(** Values with the same fields are wrapped into equal values. *)
Lemma py_eqb_same_json j1 :
  forall j2, same_json j1 j2 -> py_eqb (munchify j1) (munchify j2) = true.
Proof.
  induction j1 as [| b | n | q | s | l IH | kvs IH | kvs IH] using value_nested_ind;
    intros j2 Hsame; inversion Hsame; subst.
  - reflexivity.
  - cbn. apply Qeq_bool_refl.
  - cbn. apply Qeq_bool_refl.
  - cbn. apply Qeq_bool_refl.
  - cbn. apply String.eqb_refl.
  - cbn [munchify]. apply py_eqb_lists.
    match goal with H : Forall2 same_json _ _ |- _ => rename H into Hl end.
    clear Hsame. induction Hl as [| x y l l2 Hxy Hl IHl]; [constructor |].
    apply Forall_cons_iff in IH as [IHx IHr]. cbn [map]. constructor; auto.
  - match goal with H : forall k, option_Forall2 _ _ _ |- _ => rename H into Hm end.
    destruct (same_json_keys kvs m2) as [Hlen _]; try assumption.
    cbn [munchify]. fold (munch_members kvs). fold (munch_members m2).
    apply py_eqb_munches.
    + unfold munch_members. now rewrite !length_map.
    + intros k x Hin. unfold munch_members in Hin. apply in_map_iff in Hin as ([k0 x0] & [= <- <-] & Hin).
      cbn [fst snd]. rewrite assoc_munch_members.
      pose proof (Hm k0) as Hk. rewrite (assoc_In k0 x0 kvs) in Hk by assumption.
      inversion Hk as [x' y Hxy Hx' Hy |]; subst.
      exists (munchify y). split; [reflexivity |].
      rewrite Forall_forall in IH. apply (IH (k0, x0) Hin). exact Hxy.
Qed.

Lemma py_eqb_record v : record v -> py_eqb v v = true.
Proof. intros (j & Hj & ->). now apply py_eqb_same_json. Qed.

Variable hash_frozenset : gset string -> Z.

Lemma Munch_hash_munchify m :
  Munch_hash hash_frozenset (munchify (VDict m)) = Ok (hash_frozenset (list_to_set (keys m))).
Proof.
  cbn [munchify Munch_hash toDict]. f_equal. f_equal. f_equal.
  unfold keys. rewrite !map_map. reflexivity.
Qed.

(** C8: two JSON objects with the same fields are wrapped into Records
    that are equal and have the same hash, in whatever order their members
    came; the hash is that of the set of the member names. *)
Theorem same_fields_equal_records (m1 m2 : list (string * value)) :
  same_json (VDict m1) (VDict m2) ->
  py_eqb (munchify (VDict m1)) (munchify (VDict m2)) = true
  /\ Munch_hash hash_frozenset (munchify (VDict m1))
     = Ok (hash_frozenset (list_to_set (keys m1)))
  /\ Munch_hash hash_frozenset (munchify (VDict m2))
     = Munch_hash hash_frozenset (munchify (VDict m1)).
Proof.
  intros Hsame. split; [now apply py_eqb_same_json |]. split; [apply Munch_hash_munchify |].
  rewrite !Munch_hash_munchify. inversion Hsame; subst.
  destruct (same_json_keys m1 m2) as [_ Hkeys]; try assumption. now rewrite Hkeys.
Qed.

End Records.

Lemma same_fields_equal_records_witness :
  let m1 := [("id", VInt 1); ("tags", VList [VStr "a"; VDict [("x", VNone)]])] in
  let m2 := [("tags", VList [VStr "a"; VDict [("x", VNone)]]); ("id", VInt 1)] in
  let h := fun s : gset string => Z.of_nat (size s) in
  py_eqb (munchify (VDict m1)) (munchify (VDict m2)) = true
  /\ Munch_hash h (munchify (VDict m2)) = Munch_hash h (munchify (VDict m1)).
Proof.
  cbv zeta.
  assert (same_json (VDict [("x", VNone)]) (VDict [("x", VNone)])) as Hx.
  { constructor; [repeat constructor; simpl; tauto .. |].
    intros k. cbn [assoc]. destruct (String.eqb k "x"); repeat constructor. }
  assert (same_json (VList [VStr "a"; VDict [("x", VNone)]])
            (VList [VStr "a"; VDict [("x", VNone)]])) as Htags.
  { apply same_list. apply Forall2_cons; [apply same_str |].
    apply Forall2_cons; [exact Hx | apply Forall2_nil]. }
  assert (same_json (VDict [("id", VInt 1); ("tags", VList [VStr "a"; VDict [("x", VNone)]])])
            (VDict [("tags", VList [VStr "a"; VDict [("x", VNone)]]); ("id", VInt 1)])) as Hsame.
  { constructor.
    - repeat constructor; simpl; intuition discriminate.
    - repeat constructor; simpl; intuition discriminate.
    - intros k. cbn [assoc].
      destruct (String.eqb_spec k "id") as [Hid | Hid];
        destruct (String.eqb_spec k "tags") as [Htag | Htag];
        try congruence; constructor; first [exact Htags | apply same_int]. }
  destruct (same_fields_equal_records (fun s : gset string => Z.of_nat (size s)) _ _ Hsame)
    as (Heq & _ & Hhash).
  split; [exact Heq | exact Hhash].
Defined.

(** ** The window of a timetable request *)

Section CustomWindow.
Variable L : lib.
Variable E : env.
Variable self : client.

Lemma strptime_raises s e : Strptime.strptime s = Raise e -> e = ValueError.
Proof.
  unfold Strptime.strptime, Strptime.int_field, Calendar.mkdate. unfold_M.
  intros H. split_matches; congruence.
Qed.

(** Later dates have later timestamps, in a zone whose offset moves by
    less than a day. *)
Lemma timestamp_increasing d1 d2 :
  tz_bounded L ->
  Calendar.toordinal d1 < Calendar.toordinal d2 ->
  timestamp L d1 * 1000 < timestamp L d2 * 1000.
Proof.
  intros Htz Hlt. unfold timestamp.
  specialize (Htz (Calendar.timegm_date d1) (Calendar.timegm_date d2)).
  unfold Calendar.timegm_date in *. lia.
Qed.

(** The call of a decorated generator function returns an object and runs
    nothing of the body. *)
Lemma get_timetable_returns start_date end_date uid timeout st :
  hashable uid = true -> hashable timeout = true ->
  exists g st1,
    get_timetable start_date end_date uid timeout st = (Ok g, st1)
    /\ log st1 = log st /\ mon_sun st1 = mon_sun st.
Proof.
  intros Hu Ht. unfold get_timetable, cached, alloc. cbn [call_hashable].
  rewrite Hu, Ht. cbn [andb negb].
  destruct (memo_lookup _ (memo st)) as [g |]; eexists _, _; split; try reflexivity;
    split; reflexivity.
Qed.

(** C3 (amended): a call of [get_timetable] with a custom window returns a
    generator and raises nothing; when a newly made generator is first
    advanced the body runs: it fails with [BadTimestamp] when one of the two
    texts is not a date for [strptime] with ["%d.%m.%y"]; when both are, they
    become millisecond timestamps that grow strictly with the date (in a
    time zone whose offset moves by less than a day), and a start that is
    not before the end raises nothing: a record is logged and the request is
    sent. *)
Theorem get_timetable_custom_window
    (start_date end_date : pyarg) (uid timeout : value) (g : nat) (st : state) :
  String.eqb (str_arg start_date) "0" && String.eqb (str_arg end_date) "0" = false ->
  tz_bounded L ->
  heap st !! g = Some (OGen (Created (Body_get_timetable start_date end_date uid timeout))) ->
  match Strptime.strptime (str_arg start_date), Strptime.strptime (str_arg end_date) with
  | Ok d1, Ok d2 =>
      let s := timestamp L d1 * 1000 in
      let e := timestamp L d2 * 1000 in
      let st' := if s <? e then st
                 else set_log (log st ++ ["startdate needs to be before enddate"]) st in
      timetable_window L E start_date end_date st = (Ok (VInt s, VInt e), st')
      /\ gen_start L E self (Body_get_timetable start_date end_date uid timeout) st
         = timetable_request L E self
             (match uid with VNone => user_id self | _ => uid end) (VInt s, VInt e) st'
      /\ (Calendar.toordinal d1 < Calendar.toordinal d2 -> s < e)
  | _, _ =>
      timetable_window L E start_date end_date st = (Raise BadTimestamp, st)
      /\ gen_next L E self g st = (Raise BadTimestamp, set_obj g (OGen Closed) st)
  end
  /\ (hashable uid = true -> hashable timeout = true ->
      forall st0, exists g0 st1,
        get_timetable start_date end_date uid timeout st0 = (Ok g0, st1)
        /\ log st1 = log st0).
Proof.
  intros Hcustom Htz Hg. split.
  - destruct (Strptime.strptime (str_arg start_date)) as [d1 | e1] eqn:H1.
    + destruct (Strptime.strptime (str_arg end_date)) as [d2 | e2] eqn:H2.
      * cbv zeta.
        assert (timetable_window L E start_date end_date st
                = (Ok (VInt (timestamp L d1 * 1000), VInt (timestamp L d2 * 1000)),
                   if timestamp L d1 * 1000 <? timestamp L d2 * 1000 then st
                   else set_log (log st ++ ["startdate needs to be before enddate"]) st))
          as Hw.
        { unfold timetable_window. rewrite Hcustom, H1, H2. unfold log_record. unfold_M.
          destruct (_ <? _); reflexivity. }
        split; [exact Hw |]. split.
        -- unfold gen_start. unfold mbind at 1. unfold M_bind. rewrite Hw. reflexivity.
        -- now apply timestamp_increasing.
      * pose proof (strptime_raises _ _ H2) as ->.
        assert (timetable_window L E start_date end_date st = (Raise BadTimestamp, st)) as Hw.
        { unfold timetable_window. rewrite Hcustom, H1, H2. reflexivity. }
        split; [exact Hw |].
        unfold gen_next. rewrite Hg.
        unfold gen_start. unfold mbind at 1. unfold M_bind. rewrite Hw. reflexivity.
    + pose proof (strptime_raises _ _ H1) as ->.
      assert (timetable_window L E start_date end_date st = (Raise BadTimestamp, st)) as Hw.
      { unfold timetable_window. rewrite Hcustom, H1. reflexivity. }
      split; [exact Hw |].
      unfold gen_next. rewrite Hg.
      unfold gen_start. unfold mbind at 1. unfold M_bind. rewrite Hw. reflexivity.
  - intros Hu Ht st0.
    destruct (get_timetable_returns start_date end_date uid timeout st0 Hu Ht)
      as (g0 & st1 & Hcall & Hlog & _).
    exists g0, st1. split; assumption.
Qed.
End CustomWindow.

Lemma demo_tz_bounded : tz_bounded Demo.the_lib.
Proof. intros a b. cbn. lia. Qed.

(** C3 (counterexample): the call with the malformed date ["2021-12-05"]
    does not fail: it returns a generator (object 1) that has not started. *)
Lemma get_timetable_call_does_not_fail :
  let r := get_timetable (AStr "2021-12-05") (AStr "23.02.22") VNone (VInt 20) Demo.st0 in
  fst r = Ok 1%nat
  /\ heap (snd r) !! 1%nat
     = Some (OGen (Created (Body_get_timetable (AStr "2021-12-05") (AStr "23.02.22")
                              VNone (VInt 20))))
  /\ fst r <> Raise BadTimestamp.
Proof. vm_compute. repeat split. discriminate. Qed.

(** The dates of the example: the generator for ["2021-12-05"] fails with
    [BadTimestamp] at its first advance; ["05.12.21"] and ["23.02.22"]
    become the timestamps of their midnights (one hour east of UTC), in
    order; a window that ends before it starts is logged and sent all the
    same. *)
Lemma get_timetable_custom_window_witness :
  let bad := snd (get_timetable (AStr "2021-12-05") (AStr "23.02.22") VNone (VInt 20) Demo.st0) in
  let good := snd (get_timetable (AStr "05.12.21") (AStr "23.02.22") VNone (VInt 20) Demo.st0) in
  let back := snd (get_timetable (AStr "23.02.22") (AStr "05.12.21") VNone (VInt 20) Demo.st0) in
  gen_next Demo.the_lib Demo.the_env Demo.john 1 bad
  = (Raise BadTimestamp, set_obj 1 (OGen Closed) bad)
  /\ timetable_window Demo.the_lib Demo.the_env (AStr "05.12.21") (AStr "23.02.22") good
     = (Ok (VInt 1638658800000, VInt 1645570800000), good)
  /\ 1638658800000 < 1645570800000
  /\ timetable_window Demo.the_lib Demo.the_env (AStr "23.02.22") (AStr "05.12.21") back
     = (Ok (VInt 1645570800000, VInt 1638658800000),
        set_log ["startdate needs to be before enddate"] back).
Proof.
  cbv zeta.
  pose proof (get_timetable_custom_window Demo.the_lib Demo.the_env Demo.john
                (AStr "2021-12-05") (AStr "23.02.22") VNone (VInt 20) 1
                (snd (get_timetable (AStr "2021-12-05") (AStr "23.02.22") VNone (VInt 20)
                        Demo.st0))
                eq_refl demo_tz_bounded eq_refl) as [H1 _].
  pose proof (get_timetable_custom_window Demo.the_lib Demo.the_env Demo.john
                (AStr "05.12.21") (AStr "23.02.22") VNone (VInt 20) 1
                (snd (get_timetable (AStr "05.12.21") (AStr "23.02.22") VNone (VInt 20)
                        Demo.st0))
                eq_refl demo_tz_bounded eq_refl) as [H2 _].
  pose proof (get_timetable_custom_window Demo.the_lib Demo.the_env Demo.john
                (AStr "23.02.22") (AStr "05.12.21") VNone (VInt 20) 1
                (snd (get_timetable (AStr "23.02.22") (AStr "05.12.21") VNone (VInt 20)
                        Demo.st0))
                eq_refl demo_tz_bounded eq_refl) as [H3 _].
  change (Strptime.strptime (str_arg (AStr "2021-12-05"))) with (@Raise Calendar.date ValueError)
    in H1.
  change (Strptime.strptime (str_arg (AStr "05.12.21")))
    with (Ok (Calendar.Date 738129)) in H2, H3.
  change (Strptime.strptime (str_arg (AStr "23.02.22")))
    with (Ok (Calendar.Date 738209)) in H2, H3.
  cbv iota beta zeta in H1, H2, H3.
  destruct H1 as (_ & H1). destruct H2 as (H2 & _ & Hlt). destruct H3 as (H3 & _).
  split; [exact H1 |]. split; [exact H2 |]. split; [apply Hlt; reflexivity |]. exact H3.
Defined.

(** ** Homework *)

Section Homework.
Variable L : lib.
Variable E : env.
Variable self : client.

(** No run of [set_homework_data] ends in [MissingPermission]. *)
Lemma set_homework_data_never_MissingPermission lesson title description st :
  fst (set_homework_data L E self lesson title description st) <> Raise MissingPermission.
Proof.
  intros H.
  unfold set_homework_data, response_json, alloc, _verify_response_code, getattr, first_item
    in H.
  unfold_M. split_matches; simpl in *; congruence.
Qed.

(** C7 (the code departs from the claim): when the portal answers the
    saving of homework with a payload whose [data] is the empty list,
    [set_homework_data] fails with the [AssertionError] of its [assert],
    not with [MissingPermission]. *)
Theorem set_homework_data_empty_payload
    (lesson : value) (title description : string) (st : state)
    (classId classId0 id j : value) (response : http_response) :
  getattr lesson "classId" = Ok classId ->
  first_item classId = Ok classId0 ->
  getattr lesson "id" = Ok id ->
  response = post E self "timetable/ajax-save-lesson-home-work-data"
               [("timetableClassBookId", classId0); ("timetableId", id);
                ("homeWorkData[title]", VStr title);
                ("homeWorkData[description]", VStr description);
                ("csrfToken", VStr (_csrf_token self))] ->
  response_ok response = true ->
  json_loads L (content response) = Some j ->
  getattr (munchify j) "data" = Ok (VList []) ->
  set_homework_data L E self lesson title description st
  = (Raise (AssertionError "Missing permissions" []), st).
Proof.
  intros HclassId Hfirst Hid -> Hok Hjson Hdata.
  unfold set_homework_data, response_json, _verify_response_code. unfold_M.
  rewrite HclassId, Hfirst, Hid, Hok, Hjson, Hdata. reflexivity.
Qed.

(** What [set_homework_data] returns is a new object, and no cache learns
    of it. *)
Lemma set_homework_data_fresh lesson title description st a st1 :
  set_homework_data L E self lesson title description st = (Ok a, st1) ->
  a = length (heap st) /\ memo st1 = memo st.
Proof.
  unfold set_homework_data, response_json, alloc, _verify_response_code. unfold_M.
  intros H. split_matches. simpl. split; reflexivity.
Qed.

Lemma get_person_picture_fresh studentid st a st1 :
  get_person_picture L E self studentid st = (Ok a, st1) ->
  a = length (heap st) /\ memo st1 = memo st.
Proof.
  unfold get_person_picture, alloc. unfold_M.
  destruct (image_open L _) as [img | e]; [| discriminate].
  intros [= <- <-]. simpl. split; reflexivity.
Qed.
End Homework.

Lemma set_homework_data_empty_payload_witness :
  set_homework_data Demo.the_lib Demo.the_env Demo.john (Demo.lesson 1 "Maths")
    "Essay" "Two pages" Demo.st0
  = (Raise (AssertionError "Missing permissions" []), Demo.st0).
Proof.
  apply (set_homework_data_empty_payload Demo.the_lib Demo.the_env Demo.john
           (Demo.lesson 1 "Maths") "Essay" "Two pages" Demo.st0
           (VList [VInt 5]) (VInt 5) (VInt 1) Demo.denied_json _
           eq_refl eq_refl eq_refl eq_refl).
  - vm_compute. reflexivity.
  - vm_compute. reflexivity.
  - vm_compute. reflexivity.
Defined.

(** With a payload that is not empty the Record of the answer comes back. *)
Example set_homework_data_saved :
  let '(r, st1) := set_homework_data Demo.the_lib (Demo.saving_env "Essay") Demo.john
                     (Demo.lesson 1 "Maths") "Essay" "Two pages" Demo.st0 in
  r = Ok 1%nat /\ heap st1 !! 1%nat = Some (OVal (munchify (Demo.saved_json "Essay"))).
Proof. vm_compute. split; reflexivity. Qed.

(** ** Memoisation *)

Section Memoisation.
Variable L : lib.
Variable self : client.

Lemma pyarg_eqb_refl a : pyarg_eqb a a = true.
Proof. destruct a; simpl; [apply Z.eqb_refl | apply String.eqb_refl]. Qed.

Lemma call_eqb_refl c : call_wf c -> call_eqb c c = true.
Proof.
  destruct c; simpl; try reflexivity.
  - intros [Hu Ht]. now rewrite !pyarg_eqb_refl, !py_eqb_record.
  - apply py_eqb_record.
  - apply py_eqb_record.
  - apply py_eqb_record.
Qed.

(** A decorated call that returned is answered from the cache from then
    on, whatever its body would do. *)
Lemma cached_again c body body' st a st1 :
  call_eqb c c = true ->
  cached c body st = (Ok a, st1) ->
  cached c body' st1 = (Ok a, st1).
Proof.
  intros Hrefl. unfold cached.
  destruct (call_hashable c); simpl; [| discriminate].
  destruct (memo_lookup c (memo st)) as [a0 |] eqn:Hhit.
  - intros [= <- <-]. now rewrite Hhit.
  - destruct (body st) as [[a1 | e] st'] eqn:Hbody; [| discriminate].
    intros [= <- <-]. cbn [memo set_memo memo_lookup]. now rewrite Hrefl.
Qed.

Lemma invoke_cached E c : exists body, invoke L E self c = cached c body.
Proof. destruct c; eexists; reflexivity. Qed.

(** C2 (amended): for every method decorated with the cache (resources,
    timetable, absences, classmates, class teachers, absence data of a
    lesson, homework information) and all arguments, once a call has
    returned, a call with the same arguments on the same client returns
    the same object and leaves the state as it is, whatever the portal
    would answer by then; [set_homework_data] and [get_person_picture] are
    not memoised: what they return is a new object each time. *)
Theorem decorated_calls_are_memoised (E E' : env) (st : state) :
  (forall c a st1,
      call_wf c ->
      invoke L E self c st = (Ok a, st1) ->
      invoke L E' self c st1 = (Ok a, st1))
  /\ (forall lesson title description a st1,
         set_homework_data L E self lesson title description st = (Ok a, st1) ->
         a = length (heap st) /\ memo st1 = memo st)
  /\ (forall studentid a st1,
         get_person_picture L E self studentid st = (Ok a, st1) ->
         a = length (heap st) /\ memo st1 = memo st).
Proof.
  split; [| split].
  - intros c a st1 Hwf Hcall.
    destruct (invoke_cached E c) as [body Hbody].
    destruct (invoke_cached E' c) as [body' Hbody'].
    rewrite Hbody in Hcall. rewrite Hbody'.
    eapply cached_again; [now apply call_eqb_refl | exact Hcall].
  - intros lesson title description a st1 Hcall.
    eapply set_homework_data_fresh. exact Hcall.
  - intros studentid a st1 Hcall.
    eapply get_person_picture_fresh. exact Hcall.
Qed.
End Memoisation.

(** The resources of the example: fetched once, then answered from the cache
    even when the portal has gone away. *)
Lemma decorated_calls_are_memoised_witness :
  let down := Env (fun _ => Response 503 "") Demo.wednesday in
  invoke Demo.the_lib Demo.the_env Demo.john Call_get_resources initial_state = (Ok 0%nat, Demo.st0)
  /\ invoke Demo.the_lib down Demo.john Call_get_resources Demo.st0 = (Ok 0%nat, Demo.st0).
Proof.
  cbv zeta.
  assert (invoke Demo.the_lib Demo.the_env Demo.john Call_get_resources initial_state
          = (Ok 0%nat, Demo.st0)) as Hfirst by (vm_compute; reflexivity).
  split; [exact Hfirst |].
  exact (proj1 (decorated_calls_are_memoised Demo.the_lib Demo.john Demo.the_env
                  (Env (fun _ => Response 503 "") Demo.wednesday) initial_state)
           Call_get_resources 0%nat Demo.st0 I Hfirst).
Defined.

(** C2 (counterexample): two calls of [set_homework_data] with the same
    arguments on the same client, the homework of the lesson having changed
    on the portal in between: the second call returns another object, with
    the new answer of the portal in it. *)
Lemma set_homework_data_is_not_memoised :
  let call E := set_homework_data Demo.the_lib E Demo.john (Demo.lesson 1 "Maths")
                  "Essay" "Two pages" in
  let first := call (Demo.saving_env "Essay") Demo.st0 in
  let second := call (Demo.saving_env "Quiz") (snd first) in
  fst first = Ok 1%nat
  /\ fst second = Ok 2%nat
  /\ heap (snd second) !! 1%nat = Some (OVal (munchify (Demo.saved_json "Essay")))
  /\ heap (snd second) !! 2%nat = Some (OVal (munchify (Demo.saved_json "Quiz")))
  /\ fst second <> fst first.
Proof. vm_compute. repeat split; discriminate. Qed.


(** * Further properties of the module *)

(** ** The default window, continued *)

Section WeekWindow.
Variable L : lib.

Lemma weekday_of_week_day monday k :
  Calendar.weekday monday = 0 -> 0 <= k <= 6 ->
  Calendar.weekday (Calendar.Date (Calendar.toordinal monday + k)) = k.
Proof.
  unfold Calendar.weekday. cbn [Calendar.toordinal]. intros Hmon Hk.
  replace (Calendar.toordinal monday + k + 6) with (k + (Calendar.toordinal monday + 6)) by lia.
  rewrite Z.add_mod, Hmon, Z.add_0_r, Z.mod_mod by lia. apply Z.mod_small. lia.
Qed.

(** X1: every day of a week gives the same default window as the week's
    Monday. *)
Theorem get_mon_and_sun_same_week (monday : Calendar.date) (k : Z) :
  Calendar.weekday monday = 0 -> 0 <= k <= 6 ->
  _get_mon_and_sun (Calendar.Date (Calendar.toordinal monday + k)) = _get_mon_and_sun monday.
Proof.
  intros Hmon Hk. unfold _get_mon_and_sun.
  rewrite (weekday_of_week_day monday k Hmon Hk), Hmon.
  unfold Calendar.sub_days. cbn [Calendar.toordinal].
  replace (Calendar.toordinal monday + k - k) with (Calendar.toordinal monday - 0) by lia.
  reflexivity.
Qed.

Lemma default_window_runs E start_date end_date st :
  str_arg start_date = "0" -> str_arg end_date = "0" ->
  exists w,
    _get_mon_and_sun_cached (today E) (mon_sun st) = (Ok w, Some w)
    /\ timetable_window L E start_date end_date st
       = (Ok (VStr (fst w), VStr (snd w)), set_mon_sun (Some w) st).
Proof.
  intros Hs He. unfold timetable_window, _get_mon_and_sun_call. rewrite Hs, He.
  change (String.eqb "0" "0" && String.eqb "0" "0") with true. cbv iota. unfold_M.
  unfold _get_mon_and_sun_cached. destruct (mon_sun st) as [w |].
  - exists w. split; reflexivity.
  - destruct (get_mon_and_sun_value (today E)) as (p & n & Hrun & _).
    rewrite Hrun. exists (p, n). split; reflexivity.
Qed.

(** X2: a timetable request without dates never fails on its window, and
    the window it used first stays: later requests without dates get the
    same window whatever the date has become. *)
Theorem default_window_is_kept (E E' : env) (start_date end_date : pyarg) (st : state) :
  str_arg start_date = "0" -> str_arg end_date = "0" ->
  exists w st1,
    timetable_window L E start_date end_date st = (Ok w, st1)
    /\ timetable_window L E' start_date end_date st1 = (Ok w, st1).
Proof.
  intros Hs He.
  destruct (default_window_runs E start_date end_date st Hs He) as (w & _ & Hrun).
  exists (VStr (fst w), VStr (snd w)), (set_mon_sun (Some w) st). split; [exact Hrun |].
  destruct (default_window_runs E' start_date end_date (set_mon_sun (Some w) st) Hs He)
    as (w' & Hmemo & Hrun').
  cbn [mon_sun set_mon_sun _get_mon_and_sun_cached] in Hmemo. injection Hmemo as <-.
  rewrite Hrun'. reflexivity.
Qed.
End WeekWindow.

Lemma get_mon_and_sun_same_week_witness :
  _get_mon_and_sun (Calendar.Date (Calendar._ymd2ord 2021 12 12))
  = _get_mon_and_sun (Calendar.Date (Calendar._ymd2ord 2021 12 6)).
Proof.
  assert (Calendar.weekday (Calendar.Date (Calendar._ymd2ord 2021 12 6)) = 0) as Hmon
    by reflexivity.
  assert (0 <= 6 <= 6) as Hk by lia.
  exact (get_mon_and_sun_same_week (Calendar.Date (Calendar._ymd2ord 2021 12 6)) 6 Hmon Hk).
Defined.

Lemma default_window_is_kept_witness :
  exists w st1,
    timetable_window Demo.the_lib Demo.the_env (AInt 0) (AInt 0) Demo.st0 = (Ok w, st1)
    /\ timetable_window Demo.the_lib
         (Env (send Demo.the_env) (Calendar.Date (Calendar._ymd2ord 2022 3 1)))
         (AInt 0) (AInt 0) st1 = (Ok w, st1).
Proof.
  exact (default_window_is_kept Demo.the_lib Demo.the_env
           (Env (send Demo.the_env) (Calendar.Date (Calendar._ymd2ord 2022 3 1)))
           (AInt 0) (AInt 0) Demo.st0 eq_refl eq_refl).
Defined.

(** ** The window of a timetable request, continued *)

Section OneSidedWindow.
Variable L : lib.
Variable E : env.

(** X3: a request that gives only one of the two dates (the other left at
    its default 0) fails with [BadTimestamp], whatever the date given is. *)
Theorem one_date_is_BadTimestamp (start_date end_date : pyarg) (st : state) :
  (str_arg start_date = "0" /\ str_arg end_date <> "0")
  \/ (str_arg start_date <> "0" /\ str_arg end_date = "0") ->
  timetable_window L E start_date end_date st = (Raise BadTimestamp, st).
Proof.
  intros Hone. unfold timetable_window.
  assert (Strptime.strptime "0" = Raise ValueError) as Hzero by reflexivity.
  destruct Hone as [[Hs He] | [Hs He]].
  - rewrite Hs. apply String.eqb_neq in He. rewrite He. cbn [String.eqb andb].
    change (String.eqb "0" "0" && false) with false. cbv iota.
    rewrite Hzero. reflexivity.
  - rewrite He. apply String.eqb_neq in Hs. rewrite Hs. cbn [andb].
    destruct (Strptime.strptime (str_arg start_date)) as [d | e] eqn:Hparse.
    + rewrite Hzero. reflexivity.
    + rewrite (strptime_raises _ _ Hparse). reflexivity.
Qed.
End OneSidedWindow.

Lemma one_date_is_BadTimestamp_witness :
  timetable_window Demo.the_lib Demo.the_env (AStr "05.12.21") (AInt 0) Demo.st0
  = (Raise BadTimestamp, Demo.st0).
Proof.
  apply one_date_is_BadTimestamp. right. split; [discriminate | reflexivity].
Defined.

(** ** Identity resolution, continued *)

Section CaseInsensitive.

Lemma lower_char_idem c : Str.lower_char (Str.lower_char c) = Str.lower_char c.
Proof. destruct c as [[] [] [] [] [] [] [] []]; reflexivity. Qed.

Lemma lower_char_dot c : Ascii.eqb (Str.lower_char c) "." = Ascii.eqb c ".".
Proof. destruct c as [[] [] [] [] [] [] [] []]; reflexivity. Qed.

Lemma lower_idem s : Str.lower (Str.lower s) = Str.lower s.
Proof.
  induction s as [| c s IH]; [reflexivity |].
  cbn [Str.lower]. now rewrite lower_char_idem, IH.
Qed.

Lemma split_lower s : Str.split "." (Str.lower s) = map Str.lower (Str.split "." s).
Proof.
  induction s as [| c s IH]; [reflexivity |].
  cbn [Str.lower Str.split]. rewrite lower_char_dot, IH.
  destruct (Ascii.eqb c "."); [reflexivity |].
  destruct (Str.split "." s) as [| p ps]; reflexivity.
Qed.

Lemma match_username_lower username students :
  _match_username_to_user_id (Str.lower username) students
  = _match_username_to_user_id username students.
Proof.
  unfold _match_username_to_user_id. rewrite split_lower.
  destruct (Str.split "." username) as [| a [| b [| c l]]]; try reflexivity.
  cbn [map]. now rewrite !lower_idem.
Qed.

(** X4: identity resolution does not look at the case of the username: two
    usernames that differ only in case resolve alike, to the same person or
    to the same failure. *)
Theorem match_username_ignores_case (username username' : string) (students : value) :
  Str.lower username = Str.lower username' ->
  _match_username_to_user_id username students
  = _match_username_to_user_id username' students.
Proof.
  intros Hlower.
  rewrite <- (match_username_lower username), <- (match_username_lower username').
  now rewrite Hlower.
Qed.
End CaseInsensitive.

Lemma match_username_ignores_case_witness :
  _match_username_to_user_id "John.DOE" (VList [student 7 "Doe, John"])
  = _match_username_to_user_id "john.doe" (VList [student 7 "Doe, John"]).
Proof. apply match_username_ignores_case. reflexivity. Defined.

(** ** Texts *)

Module StrFacts.

Lemma append_assoc a b c : (a +:+ b) +:+ c = a +:+ (b +:+ c).
Proof.
  induction a as [| x a IH]; [reflexivity |].
  change (String x ((a +:+ b) +:+ c) = String x (a +:+ (b +:+ c))). now rewrite IH.
Qed.

Lemma length_append a b : String.length (a +:+ b) = (String.length a + String.length b)%nat.
Proof.
  induction a as [| x a IH]; [reflexivity |].
  change (S (String.length (a +:+ b)) = S (String.length a + String.length b)).
  now rewrite IH.
Qed.

Lemma prefix_append p r : String.prefix p (p +:+ r) = true.
Proof.
  induction p as [| x p IH]; [destruct r; reflexivity |].
  change (String x p +:+ r) with (String x (p +:+ r)). cbn [String.prefix].
  destruct (ascii_dec x x) as [_ | Hne]; [exact IH | congruence].
Qed.

Lemma prefix_split p s : String.prefix p s = true -> exists r, s = p +:+ r.
Proof.
  revert p. induction s as [| y s IH]; intros [| x p] H.
  - exists EmptyString. reflexivity.
  - discriminate.
  - exists (String y s). reflexivity.
  - cbn [String.prefix] in H. destruct (ascii_dec x y) as [-> | _]; [| discriminate].
    destruct (IH p H) as [r ->]. exists r. reflexivity.
Qed.

Lemma substring_skip p r : String.substring (String.length p) (String.length r) (p +:+ r) = r.
Proof.
  induction p as [| x p IH].
  - change (EmptyString +:+ r) with r. cbn [String.length].
    induction r as [| y r IHr]; [reflexivity |]. cbn [String.length String.substring].
    now rewrite IHr.
  - exact IH.
Qed.

Lemma substring_take a b : String.substring 0 (String.length a) (a +:+ b) = a.
Proof.
  induction a as [| x a IH]; [destruct b; reflexivity |].
  change (String x a +:+ b) with (String x (a +:+ b)). cbn [String.length String.substring].
  now rewrite IH.
Qed.

Lemma after_prefix_append p r : Extract.after_prefix p (p +:+ r) = Some r.
Proof.
  unfold Extract.after_prefix. rewrite prefix_append, length_append.
  replace (String.length p + String.length r - String.length p)%nat with (String.length r)
    by lia.
  now rewrite substring_skip.
Qed.

Lemma after_prefix_split p s r : Extract.after_prefix p s = Some r -> s = p +:+ r.
Proof.
  unfold Extract.after_prefix. destruct (String.prefix p s) eqn:Hp; [| discriminate].
  destruct (prefix_split p s Hp) as [r' ->]. rewrite length_append.
  replace (String.length p + String.length r' - String.length p)%nat with (String.length r')
    by lia.
  rewrite substring_skip. intros [= <-]. reflexivity.
Qed.

End StrFacts.

(** ** The Extraction Layer, continued *)

Module ExtractFacts.
Import StrFacts.

Lemma dotstar_then_sound pat line m :
  Extract.dotstar_then pat line = Some m ->
  exists a b, m = a +:+ pat /\ line = a +:+ pat +:+ b
              /\ Extract.contains Extract.newline a = false.
Proof.
  revert m. induction line as [| c rest IH]; intros m H.
  - cbn [Extract.dotstar_then] in H. destruct (String.eqb_spec pat "") as [-> | _];
      [| discriminate].
    injection H as <-. exists "", "". repeat split.
  - cbn [Extract.dotstar_then] in H.
    destruct (Ascii.eqb c Extract.newline) eqn:Hc.
    + destruct (String.prefix pat (String c rest)) eqn:Hp; [| discriminate].
      injection H as <-. destruct (prefix_split _ _ Hp) as [b Hb].
      exists "", b. repeat split. exact Hb.
    + destruct (Extract.dotstar_then pat rest) as [m' |] eqn:Hrest.
      * injection H as <-. destruct (IH m' eq_refl) as (a & b & -> & -> & Hnl).
        exists (String c a), b. repeat split. cbn [Extract.contains]. now rewrite Hc, Hnl.
      * destruct (String.prefix pat (String c rest)) eqn:Hp; [| discriminate].
        injection H as <-. destruct (prefix_split _ _ Hp) as [b Hb].
        exists "", b. repeat split. exact Hb.
Qed.

Lemma dotstar_then_complete pat a b :
  Extract.contains Extract.newline a = false ->
  exists m, Extract.dotstar_then pat (a +:+ pat +:+ b) = Some m.
Proof.
  induction a as [| c a IH]; intros Hnl.
  - change ("" +:+ pat +:+ b) with (pat +:+ b).
    destruct (pat +:+ b) as [| c rest] eqn:Hline.
    + destruct pat; [| discriminate]. exists "". reflexivity.
    + cbn [Extract.dotstar_then].
      destruct (if Ascii.eqb c Extract.newline then None else Extract.dotstar_then pat rest)
        as [m |]; [eexists; reflexivity |].
      rewrite <- Hline, prefix_append. eexists; reflexivity.
  - cbn [Extract.contains] in Hnl. apply orb_false_iff in Hnl as [Hc Hnl].
    destruct (IH Hnl) as [m Hm].
    change (String c a +:+ pat +:+ b) with (String c (a +:+ pat +:+ b)).
    cbn [Extract.dotstar_then]. rewrite Hc, Hm. eexists; reflexivity.
Qed.

(** The run [.*] takes is the longest the line allows. *)
Lemma dotstar_then_longest pat line a a' b' :
  Extract.dotstar_then pat line = Some (a +:+ pat) ->
  line = a' +:+ pat +:+ b' ->
  Extract.contains Extract.newline a' = false ->
  (String.length a' <= String.length a)%nat.
Proof.
  revert a a'. induction line as [| c rest IH]; intros a a' H Hline Hnl.
  - destruct a'; [cbn; lia | discriminate].
  - destruct a' as [| c' a']; [cbn; lia |].
    change (String c' a' +:+ pat +:+ b') with (String c' (a' +:+ pat +:+ b')) in Hline.
    injection Hline as <- Hrest.
    cbn [Extract.contains] in Hnl. apply orb_false_iff in Hnl as [Hc Hnl].
    destruct (dotstar_then_complete pat a' b' Hnl) as [m' Hm']. rewrite <- Hrest in Hm'.
    cbn [Extract.dotstar_then] in H. rewrite Hc, Hm' in H. injection H as H.
    destruct (dotstar_then_sound _ _ _ Hm') as (a0 & b0 & -> & _ & _).
    destruct a as [| c0 a].
    + exfalso. apply (f_equal String.length) in H. cbn [String.length] in H.
      change ("" +:+ pat) with pat in H. rewrite length_append in H. lia.
    + change (String c0 a +:+ pat) with (String c0 (a +:+ pat)) in H.
      injection H as _ H. cbn [String.length]. apply le_n_S.
      apply (IH a a'); [| exact Hrest | exact Hnl].
      rewrite Hm'. f_equal. exact H.
Qed.

Lemma search_absences_unfold s :
  Extract.search_absences s =
  match (match Extract.after_prefix grid_marker s with
         | Some (String c rest) =>
             if Ascii.eqb c "{"
             then option_map (String "{") (Extract.dotstar_then grid_closing rest)
             else None
         | _ => None
         end) with
  | Some m => Some m
  | None => match s with
            | EmptyString => None
            | String _ s' => Extract.search_absences s'
            end
  end.
Proof.
  destruct s as [| x s]; cbn [Extract.search_absences];
    (destruct (Extract.after_prefix _ _) as [[| c rest] |]; [reflexivity | | reflexivity]);
    destruct c as [[] [] [] [] [] [] [] []]; try reflexivity;
    destruct (Extract.dotstar_then _ rest); reflexivity.
Qed.

Lemma search_absences_sound s m :
  Extract.search_absences s = Some m ->
  exists pre a post,
    s = pre +:+ grid_marker +:+ "{" +:+ a +:+ grid_closing +:+ post
    /\ m = "{" +:+ a +:+ grid_closing
    /\ Extract.contains Extract.newline a = false
    /\ Extract.dotstar_then grid_closing (a +:+ grid_closing +:+ post)
       = Some (a +:+ grid_closing).
Proof.
  induction s as [| x s IH]; [discriminate |]. rewrite search_absences_unfold.
  assert (Extract.search_absences s = Some m ->
          exists pre a post,
            String x s = pre +:+ grid_marker +:+ "{" +:+ a +:+ grid_closing +:+ post
            /\ m = "{" +:+ a +:+ grid_closing
            /\ Extract.contains Extract.newline a = false
            /\ Extract.dotstar_then grid_closing (a +:+ grid_closing +:+ post)
               = Some (a +:+ grid_closing)) as Hlater.
  { intros H. destruct (IH H) as (pre & a & post & -> & Hm & Hnl & Hd).
    exists (String x pre), a, post. repeat split; assumption. }
  destruct (Extract.after_prefix grid_marker (String x s)) as [[| c rest] |] eqn:Hp;
    [exact Hlater | | exact Hlater].
  destruct (Ascii.eqb_spec c "{") as [-> | _]; [| exact Hlater].
  destruct (Extract.dotstar_then grid_closing rest) as [m' |] eqn:Hd; cbn [option_map];
    [| exact Hlater].
  intros [= <-]. apply after_prefix_split in Hp.
  destruct (dotstar_then_sound _ _ _ Hd) as (a & b & -> & -> & Hnl).
  exists "", a, b. repeat split; assumption.
Qed.

Lemma search_absences_complete pre a post :
  Extract.contains Extract.newline a = false ->
  exists m,
    Extract.search_absences (pre +:+ grid_marker +:+ "{" +:+ a +:+ grid_closing +:+ post)
    = Some m.
Proof.
  intros Hnl. induction pre as [| x pre IH]; rewrite search_absences_unfold.
  - change ("" +:+ grid_marker +:+ "{" +:+ a +:+ grid_closing +:+ post)
      with (grid_marker +:+ String "{" (a +:+ grid_closing +:+ post)).
    rewrite after_prefix_append. change (Ascii.eqb "{" "{") with true. cbv iota.
    destruct (dotstar_then_complete grid_closing a post Hnl) as [m ->].
    eexists; reflexivity.
  - change (String x pre +:+ grid_marker +:+ "{" +:+ a +:+ grid_closing +:+ post)
      with (String x (pre +:+ grid_marker +:+ "{" +:+ a +:+ grid_closing +:+ post)).
    destruct IH as [m Hm].
    match goal with |- exists m, match ?h with _ => _ end = _ => destruct h end;
      eexists; [reflexivity | exact Hm].
Qed.

Lemma drop_last_closing x : Str.drop_last 6 (x +:+ grid_closing) = x +:+ "}".
Proof.
  unfold Str.drop_last, grid_closing.
  replace (x +:+ "},front") with ((x +:+ "}") +:+ ",front")
    by (now rewrite append_assoc).
  rewrite length_append. cbn [String.length].
  replace (String.length (x +:+ "}") + 6 - 6)%nat with (String.length (x +:+ "}")) by lia.
  apply substring_take.
Qed.

End ExtractFacts.

Section ExtractionLayer.
Import StrFacts ExtractFacts.

(** X5: what the list operations cut out of a page is a text in braces that
    follows the marker [gridDataAndConfiguration:] and is closed by
    [},front] on the same line, and among the places where the line could be
    closed the match takes the last one. *)
Theorem search_absences_takes_braces (s m : string) :
  Extract.search_absences s = Some m ->
  exists pre a post,
    s = pre +:+ grid_marker +:+ "{" +:+ a +:+ grid_closing +:+ post
    /\ Extract.contains Extract.newline a = false
    /\ Str.drop_last 6 m = "{" +:+ a +:+ "}"
    /\ (forall a' post',
          a +:+ grid_closing +:+ post = a' +:+ grid_closing +:+ post' ->
          Extract.contains Extract.newline a' = false ->
          (String.length a' <= String.length a)%nat).
Proof.
  intros H. destruct (search_absences_sound s m H) as (pre & a & post & Hs & -> & Hnl & Hd).
  exists pre, a, post. split; [exact Hs |]. split; [exact Hnl |]. split.
  - change ("{" +:+ a +:+ grid_closing) with (String "{" a +:+ grid_closing).
    rewrite drop_last_closing. reflexivity.
  - intros a' post' Hline Hnl'. eapply dotstar_then_longest; eauto.
Qed.

(** X6: the pattern is found in exactly the pages that hold the marker, an
    opening brace and, further on the same line, [},front]. *)
Theorem search_absences_finds_marker (s : string) :
  Extract.search_absences s <> None
  <-> exists pre a post,
        s = pre +:+ grid_marker +:+ "{" +:+ a +:+ grid_closing +:+ post
        /\ Extract.contains Extract.newline a = false.
Proof.
  split.
  - destruct (Extract.search_absences s) as [m |] eqn:H; [| congruence]. intros _.
    destruct (search_absences_sound s m H) as (pre & a & post & Hs & _ & Hnl & _).
    exists pre, a, post. split; assumption.
  - intros (pre & a & post & -> & Hnl).
    destruct (search_absences_complete pre a post Hnl) as [m ->]. discriminate.
Qed.
End ExtractionLayer.

Lemma search_absences_takes_braces_witness :
  exists pre a post,
    Extract.bytes_repr Demo.mates_page
    = pre +:+ grid_marker +:+ "{" +:+ a +:+ grid_closing +:+ post
    /\ Extract.contains Extract.newline a = false
    /\ Str.drop_last 6 (Demo.mates_text +:+ ",front") = "{" +:+ a +:+ "}"
    /\ (forall a' post',
          a +:+ grid_closing +:+ post = a' +:+ grid_closing +:+ post' ->
          Extract.contains Extract.newline a' = false ->
          (String.length a' <= String.length a)%nat).
Proof.
  apply (search_absences_takes_braces (Extract.bytes_repr Demo.mates_page)
           (Demo.mates_text +:+ ",front")).
  vm_compute. reflexivity.
Defined.

Lemma search_absences_finds_marker_witness :
  Extract.search_absences "x({gridDataAndConfiguration:{},front:1})" <> None.
Proof.
  apply (proj2 (search_absences_finds_marker "x({gridDataAndConfiguration:{},front:1})")).
  exists "x({", "", ":1})". split; reflexivity.
Defined.

(** ** The CSRF token *)

Module CsrfFacts.
Import StrFacts.

Lemma take_word_split r :
  exists post,
    r = Extract.take_word r +:+ post
    /\ all_chars Str.is_word (Extract.take_word r) = true
    /\ starts_with Str.is_word post = false.
Proof.
  induction r as [| c r IH].
  - exists "". repeat split.
  - cbn [Extract.take_word]. destruct (Str.is_word c) eqn:Hc.
    + destruct IH as (post & Hr & Hall & Hpost). exists post.
      split; [| split; [| exact Hpost]].
      * change (String c (Extract.take_word r) +:+ post)
          with (String c (Extract.take_word r +:+ post)). now rewrite <- Hr.
      * cbn [all_chars]. now rewrite Hc, Hall.
    + exists (String c r). repeat split. exact Hc.
Qed.

Lemma take_word_nonempty r :
  starts_with Str.is_word r = true -> Extract.take_word r <> "".
Proof. destruct r as [| c r]; [discriminate |]. cbn. intros ->. discriminate. Qed.

Lemma search_csrftoken_unfold s :
  Extract.search_csrftoken s =
  match (match Extract.after_prefix csrf_marker s with
         | Some rest => match Extract.take_word rest with
                        | EmptyString => None
                        | w => Some w
                        end
         | None => None
         end) with
  | Some w => Some w
  | None => match s with
            | EmptyString => None
            | String _ s' => Extract.search_csrftoken s'
            end
  end.
Proof. destruct s; reflexivity. Qed.

Lemma search_csrftoken_sound s w :
  Extract.search_csrftoken s = Some w ->
  w <> "" /\ all_chars Str.is_word w = true
  /\ exists pre post, s = pre +:+ csrf_marker +:+ w +:+ post
                      /\ starts_with Str.is_word post = false.
Proof.
  induction s as [| x s IH]; [discriminate |]. rewrite search_csrftoken_unfold.
  assert (Extract.search_csrftoken s = Some w ->
          w <> "" /\ all_chars Str.is_word w = true
          /\ exists pre post, String x s = pre +:+ csrf_marker +:+ w +:+ post
                              /\ starts_with Str.is_word post = false) as Hlater.
  { intros H. destruct (IH H) as (Hne & Hall & pre & post & -> & Hpost).
    split; [exact Hne |]. split; [exact Hall |]. exists (String x pre), post.
    split; [reflexivity | exact Hpost]. }
  destruct (Extract.after_prefix csrf_marker (String x s)) as [rest |] eqn:Hp;
    [| exact Hlater].
  destruct (take_word_split rest) as (post & Hrest & Hall & Hpost).
  destruct (Extract.take_word rest) as [| c w'] eqn:Hw; [exact Hlater |].
  intros [= <-]. apply after_prefix_split in Hp.
  split; [discriminate |]. split; [exact Hall |].
  exists "", post. split; [| exact Hpost]. rewrite Hp, Hrest. reflexivity.
Qed.

Lemma search_csrftoken_complete pre rest :
  starts_with Str.is_word rest = true ->
  exists w, Extract.search_csrftoken (pre +:+ csrf_marker +:+ rest) = Some w.
Proof.
  intros Hrest. induction pre as [| x pre IH]; rewrite search_csrftoken_unfold.
  - change ("" +:+ csrf_marker +:+ rest) with (csrf_marker +:+ rest).
    rewrite after_prefix_append. pose proof (take_word_nonempty rest Hrest) as Hne.
    destruct (Extract.take_word rest) as [| c w]; [congruence |]. eexists; reflexivity.
  - change (String x pre +:+ csrf_marker +:+ rest)
      with (String x (pre +:+ csrf_marker +:+ rest)).
    destruct IH as [w Hw].
    match goal with |- exists w, match ?h with _ => _ end = _ => destruct h end;
      eexists; [reflexivity | exact Hw].
Qed.

End CsrfFacts.

Section CsrfToken.
Import CsrfFacts.

(** X7: the CSRF token read from the classbook page is a run of word
    characters, not empty, that follows [csrfToken='] in the page and goes
    as far as word characters go; a token is found in exactly the pages in
    which a word character follows [csrfToken=']. *)
Theorem csrf_token_is_a_word (s : string) :
  (forall w,
      Extract.search_csrftoken s = Some w ->
      w <> "" /\ all_chars Str.is_word w = true
      /\ exists pre post, s = pre +:+ csrf_marker +:+ w +:+ post
                          /\ starts_with Str.is_word post = false)
  /\ (Extract.search_csrftoken s <> None
      <-> exists pre rest, s = pre +:+ csrf_marker +:+ rest
                           /\ starts_with Str.is_word rest = true).
Proof.
  split; [intros w; apply search_csrftoken_sound |]. split.
  - destruct (Extract.search_csrftoken s) as [w |] eqn:H; [| congruence]. intros _.
    destruct (search_csrftoken_sound s w H) as (Hne & Hall & pre & post & -> & _).
    exists pre, (w +:+ post). split; [reflexivity |].
    destruct w as [| c w]; [congruence |]. cbn [all_chars] in Hall.
    apply andb_true_iff in Hall as [Hc _]. exact Hc.
  - intros (pre & rest & -> & Hrest).
    destruct (search_csrftoken_complete pre rest Hrest) as [w ->]. discriminate.
Qed.
End CsrfToken.

Lemma csrf_token_is_a_word_witness :
  "tok_1" <> "" /\ all_chars Str.is_word "tok_1" = true
  /\ exists pre post, Demo.classbook_page = pre +:+ csrf_marker +:+ "tok_1" +:+ post
                      /\ starts_with Str.is_word post = false.
Proof.
  apply (proj1 (csrf_token_is_a_word Demo.classbook_page) "tok_1"). reflexivity.
Defined.

(** ** The text of a response *)

Module ReprFacts.
Import StrFacts.

Lemma substring_all s : String.substring 0 (String.length s) s = s.
Proof.
  induction s as [| c s IH]; [reflexivity |]. cbn [String.length String.substring].
  now rewrite IH.
Qed.

Lemma repr_byte_plain q c :
  printable c = true -> Ascii.eqb c q = false ->
  Extract.repr_byte q c
  = if Ascii.eqb c Extract.backslash
    then String Extract.backslash (String Extract.backslash EmptyString)
    else String c EmptyString.
Proof.
  unfold printable, Extract.repr_byte. intros Hp Hq. rewrite Hq.
  apply andb_true_iff in Hp as [Hlo Hhi]. apply Z.leb_le in Hlo. apply Z.ltb_lt in Hhi.
  destruct (Ascii.eqb_spec c Extract.backslash) as [-> | Hbs]; [reflexivity |].
  cbn [orb].
  destruct (Z.eqb_spec (Str.code c) 9); [lia |].
  destruct (Z.eqb_spec (Str.code c) 10); [lia |].
  destruct (Z.eqb_spec (Str.code c) 13); [lia |].
  destruct (Z.ltb_spec (Str.code c) 32); [lia |].
  destruct (Z.leb_spec 127 (Str.code c)); [lia |]. reflexivity.
Qed.

Lemma contains_cons q c b :
  Extract.contains q (String c b) = false ->
  Ascii.eqb c q = false /\ Extract.contains q b = false.
Proof. cbn [Extract.contains]. apply orb_false_iff. Qed.

(** Undoing the doubled backslashes of a [repr] gives the bytes back. *)
Lemma replace_repr_body q b fuel :
  all_chars printable b = true -> Extract.contains q b = false ->
  (String.length (Extract.repr_body q b) < fuel)%nat ->
  Str.replace_fuel fuel Extract.two_backslashes Extract.one_backslash (Extract.repr_body q b)
  = b.
Proof.
  revert fuel. induction b as [| c b IH]; intros fuel Hp Hq Hfuel.
  - destruct fuel; reflexivity.
  - cbn [all_chars] in Hp. apply andb_true_iff in Hp as [Hc Hp].
    apply contains_cons in Hq as [Hcq Hq].
    cbn [Extract.repr_body] in *. rewrite (repr_byte_plain q c Hc Hcq) in *.
    destruct fuel as [| fuel]; [lia |].
    destruct (Ascii.eqb_spec c Extract.backslash) as [-> | Hbs].
    + change (String Extract.backslash (String Extract.backslash "") +:+ Extract.repr_body q b)
        with (String Extract.backslash (String Extract.backslash (Extract.repr_body q b))) in *.
      cbn [String.length] in Hfuel. cbn [Str.replace_fuel].
      change (String.prefix Extract.two_backslashes
                (String Extract.backslash (String Extract.backslash (Extract.repr_body q b))))
        with (String.prefix "" (Extract.repr_body q b)).
      replace (String.prefix "" (Extract.repr_body q b)) with true
        by (destruct (Extract.repr_body q b); reflexivity).
      change (String.length Extract.two_backslashes) with 2%nat.
      cbn [String.length String.substring].
      replace (S (S (String.length (Extract.repr_body q b))) - 2)%nat
        with (String.length (Extract.repr_body q b)) by lia.
      rewrite substring_all, IH by (try assumption; lia). reflexivity.
    + change (String c "" +:+ Extract.repr_body q b)
        with (String c (Extract.repr_body q b)) in *.
      cbn [String.length] in Hfuel. cbn [Str.replace_fuel].
      assert (String.prefix Extract.two_backslashes (String c (Extract.repr_body q b)) = false)
        as ->.
      { unfold Extract.two_backslashes. cbn [String.prefix].
        destruct (ascii_dec Extract.backslash c) as [Heq | _]; [congruence | reflexivity]. }
      rewrite IH by (try assumption; lia). reflexivity.
Qed.

End ReprFacts.

Section ResponseText.
Import StrFacts ReprFacts.

(** X8: the text that [_get_lesson_absence_data] hands to [json.loads],
    [str(content)[2:-1].replace("\\\\", "\\")], is the body of the response
    itself when the body is made of printable ASCII characters and does not
    hold both kinds of quote. *)
Theorem absence_text_is_the_body (b : string) :
  all_chars printable b = true ->
  Extract.contains Extract.squote b = false \/ Extract.contains Extract.dquote b = false ->
  Str.replace Extract.two_backslashes Extract.one_backslash
    (Str.drop_last 1 (Str.drop_first 2 (Extract.bytes_repr b)))
  = b.
Proof.
  intros Hp Hquotes. unfold Extract.bytes_repr.
  set (q := if Extract.contains Extract.squote b && negb (Extract.contains Extract.dquote b)
            then Extract.dquote else Extract.squote).
  assert (Extract.contains q b = false) as Hq.
  { unfold q. destruct (Extract.contains Extract.squote b) eqn:Hs;
      destruct (Extract.contains Extract.dquote b) eqn:Hd; cbn [andb negb];
      destruct Hquotes; congruence. }
  assert (Str.drop_first 2 (String "b" (String q (Extract.repr_body q b +:+ String q "")))
          = Extract.repr_body q b +:+ String q "") as ->.
  { unfold Str.drop_first. cbn [String.length String.substring].
    replace (S (S (String.length (Extract.repr_body q b +:+ String q ""))) - 2)%nat
      with (String.length (Extract.repr_body q b +:+ String q "")) by lia.
    apply substring_all. }
  assert (Str.drop_last 1 (Extract.repr_body q b +:+ String q "") = Extract.repr_body q b)
    as ->.
  { unfold Str.drop_last. rewrite length_append. cbn [String.length].
    replace (String.length (Extract.repr_body q b) + 1 - 1)%nat
      with (String.length (Extract.repr_body q b)) by lia.
    apply substring_take. }
  unfold Str.replace. apply replace_repr_body; [exact Hp | exact Hq | lia].
Qed.
End ResponseText.

Lemma absence_text_is_the_body_witness :
  Str.replace Extract.two_backslashes Extract.one_backslash
    (Str.drop_last 1 (Str.drop_first 2 (Extract.bytes_repr Demo.absence_text)))
  = Demo.absence_text.
Proof.
  apply absence_text_is_the_body.
  - vm_compute. reflexivity.
  - left. vm_compute. reflexivity.
Defined.

(** ** Generators, continued *)

Section Passes.
Variable L : lib.
Variable E : env.
Variable self : client.

Lemma timetable_window_memo s e st :
  memo (snd (timetable_window L E s e st)) = memo st.
Proof.
  unfold timetable_window, _get_mon_and_sun_call, log_record. unfold_M.
  destruct (_ && _).
  - destruct (_get_mon_and_sun_cached (today E) (mon_sun st)) as [[w | e0] m]; reflexivity.
  - destruct (Strptime.strptime (str_arg s)) as [d1 | []]; try reflexivity.
    destruct (Strptime.strptime (str_arg e)) as [d2 | []]; try reflexivity.
    destruct (_ <? _); reflexivity.
Qed.

(** The body of a generator touches no cache. *)
Lemma gen_start_memo b st : memo (snd (gen_start L E self b st)) = memo st.
Proof.
  destruct b as [s e u t | | |]; unfold gen_start.
  - pose proof (timetable_window_memo s e st) as Hw. unfold timetable_request. unfold_M.
    destruct (timetable_window L E s e st) as [[w | e0] st1]; simpl in Hw;
      case_matches; simpl; congruence.
  - unfold_M. case_matches; reflexivity.
  - unfold_M. case_matches; reflexivity.
  - unfold_M. case_matches; reflexivity.
Qed.

Lemma for_fuel_step {A} (body : value -> A -> result A) fuel g x rest acc st :
  heap st !! g = Some (OGen (Suspended (x :: rest))) ->
  for_fuel L E self (S fuel) g body acc st
  = match body (munchify x) acc with
    | Ok acc' => for_fuel L E self fuel g body acc' (set_obj g (OGen (Suspended rest)) st)
    | Raise e => (Raise e, set_obj g (OGen (Suspended rest)) st)
    end.
Proof.
  intros Hg. cbn [for_fuel]. unfold_M. unfold gen_next. rewrite Hg. reflexivity.
Qed.

(** A loop over a suspended generator runs its body over the Records of the
    items left, and a loop that comes to its end leaves the generator
    finished. *)
Lemma for_fuel_fold {A} (body : value -> A -> result A) g rest acc st :
  heap st !! g = Some (OGen (Suspended rest)) ->
  fst (for_fuel L E self (S (length rest)) g body acc st)
  = fold_items body (map munchify rest) acc
  /\ (forall a, fold_items body (map munchify rest) acc = Ok a ->
                snd (for_fuel L E self (S (length rest)) g body acc st)
                = set_obj g (OGen Closed) st).
Proof.
  revert acc st. induction rest as [| x rest IH]; intros acc st Hg.
  - cbn [for_fuel length]. unfold_M. unfold gen_next. rewrite Hg. split; [reflexivity |].
    intros a _. reflexivity.
  - cbn [length]. rewrite (for_fuel_step body _ g x rest acc st Hg). cbn [map fold_items].
    destruct (body (munchify x) acc) as [acc' | e]; [| split; [reflexivity | discriminate]].
    assert (heap (set_obj g (OGen (Suspended rest)) st) !! g = Some (OGen (Suspended rest)))
      as Hg' by (apply set_obj_lookup; eapply lookup_lt_Some; exact Hg).
    destruct (IH acc' _ Hg') as [Hfst Hsnd]. split; [exact Hfst |].
    intros a Ha. rewrite (Hsnd a Ha). apply set_obj_twice.
Qed.

Lemma fold_items_collect items acc : fold_items collect items acc = Ok (acc ++ items)%list.
Proof.
  revert acc. induction items as [| x items IH]; intros acc; cbn [fold_items collect].
  - now rewrite app_nil_r.
  - rewrite IH, <- app_assoc. reflexivity.
Qed.

(** X9: a pass over a generator yields the Records of all the items it has
    not visited yet, in their order, and leaves it finished: all the items
    of the answer for a generator that has not started, the remaining ones
    for a generator left in the middle. *)
Theorem pass_yields_what_is_left (g : nat) (st : state) :
  (forall b items st',
      heap st !! g = Some (OGen (Created b)) ->
      gen_start L E self b st = (Ok items, st') ->
      list_of_gen L E self g st = (Ok (map munchify items), set_obj g (OGen Closed) st'))
  /\ (forall rest,
         heap st !! g = Some (OGen (Suspended rest)) ->
         list_of_gen L E self g st = (Ok (map munchify rest), set_obj g (OGen Closed) st)).
Proof.
  assert (forall rest st0,
             heap st0 !! g = Some (OGen (Suspended rest)) ->
             list_of_gen L E self g st0
             = (Ok (map munchify rest), set_obj g (OGen Closed) st0)) as Hsusp.
  { intros rest st0 Hg.
    assert (g < length (heap st0))%nat as Hlt by (eapply lookup_lt_Some; exact Hg).
    unfold list_of_gen, for_in. unfold_M. unfold gen_next. rewrite Hg.
    destruct rest as [| x rest]; [reflexivity |].
    unfold collect at 1. unfold pending. rewrite set_obj_lookup by assumption.
    rewrite for_fuel_suspended by (now apply set_obj_lookup).
    rewrite set_obj_twice. reflexivity. }
  split; [| intros rest; apply Hsusp].
  intros b items st' Hg Hstart.
  assert (g < length (heap st))%nat as Hlt by (eapply lookup_lt_Some; exact Hg).
  pose proof (gen_start_heap L E self b st) as Hheap. rewrite Hstart in Hheap. simpl in Hheap.
  unfold list_of_gen, for_in. unfold_M. unfold gen_next. rewrite Hg, Hstart.
  destruct items as [| x rest]; [reflexivity |].
  unfold collect at 1. unfold pending. rewrite set_obj_lookup by congruence.
  rewrite for_fuel_suspended by (apply set_obj_lookup; congruence).
  rewrite set_obj_twice. reflexivity.
Qed.

Lemma invoke_generator c b :
  generator_body c = Some b ->
  invoke L E self c = cached c (alloc (OGen (Created b))).
Proof. destruct c; intros [= <-]; reflexivity. Qed.
End Passes.

Lemma pass_yields_what_is_left_witness :
  let st1 := snd (get_class_mates Demo.st0) in
  let st2 := snd (gen_next Demo.the_lib Demo.the_env Demo.john 1 st1) in
  list_of_gen Demo.the_lib Demo.the_env Demo.john 1 st2
  = (Ok [munchify (Demo.mate "8" "Roe" "Jane")], set_obj 1 (OGen Closed) st2).
Proof.
  cbv zeta.
  apply (proj2 (pass_yields_what_is_left Demo.the_lib Demo.the_env Demo.john 1
                  (snd (gen_next Demo.the_lib Demo.the_env Demo.john 1
                          (snd (get_class_mates Demo.st0)))))
           [Demo.mate "8" "Roe" "Jane"]).
  vm_compute. reflexivity.
Defined.

Section NotRetried.
Variable L : lib.
Variable self : client.

(** X10: a generator whose body failed is not run again: after the first
    advance has raised, the same call returns the same, finished generator
    from the cache, and a pass over it yields nothing and raises nothing,
    whatever the portal would answer by then. *)
Theorem failed_generator_is_not_retried
    (E E' : env) (c : call) (b : gen_body) (st st1 st2 : state) (g : nat) (e : exn) :
  generator_body c = Some b ->
  call_wf c ->
  memo_lookup c (memo st) = None ->
  invoke L E self c st = (Ok g, st1) ->
  gen_next L E self g st1 = (Raise e, st2) ->
  invoke L E' self c st2 = (Ok g, st2)
  /\ list_of_gen L E' self g st2 = (Ok [], st2).
Proof.
  intros Hb Hwf Hmiss Hcall Hnext.
  rewrite (invoke_generator L E self c b Hb) in Hcall.
  rewrite (invoke_generator L E' self c b Hb).
  unfold cached in Hcall. destruct (call_hashable c) eqn:Hhash; [| discriminate].
  cbn [negb] in Hcall. rewrite Hmiss in Hcall. unfold alloc in Hcall. cbn in Hcall.
  injection Hcall as <- <-.
  assert (heap (set_memo ((c, length (heap st)) :: memo st)
                  (set_heap (heap st ++ [OGen (Created b)]) st)) !! length (heap st)
          = Some (OGen (Created b))) as Hg.
  { cbn. now apply list_lookup_middle. }
  unfold gen_next in Hnext. rewrite Hg in Hnext.
  pose proof (gen_start_heap L E self b
                (set_memo ((c, length (heap st)) :: memo st)
                   (set_heap (heap st ++ [OGen (Created b)]) st))) as Hheap.
  pose proof (gen_start_memo L E self b
                (set_memo ((c, length (heap st)) :: memo st)
                   (set_heap (heap st ++ [OGen (Created b)]) st))) as Hmemo.
  destruct (gen_start L E self b _) as [[[| x rest] | e'] st'] eqn:Hstart;
    try discriminate.
  injection Hnext as <- <-. cbn in Hheap, Hmemo.
  assert (heap (set_obj (length (heap st)) (OGen Closed) st') !! length (heap st)
          = Some (OGen Closed)) as Hclosed.
  { apply set_obj_lookup. rewrite Hheap, length_app. cbn. lia. }
  split.
  - unfold cached. rewrite Hhash. cbn [negb]. cbn [set_obj set_heap memo]. rewrite Hmemo.
    cbn [memo_lookup]. now rewrite (call_eqb_refl c Hwf).
  - now apply list_of_gen_closed.
Qed.

(** X11: [get_lesson_absence_data] never gives a list of Records: with a
    list of lessons the cache in front of it, which hashes the argument,
    fails with [TypeError] before the method looks at the list, and a call
    that is not yet cached and returns gives the very object that
    [_get_lesson_absence_data] returns for the same lesson. *)
Theorem lesson_list_is_TypeError (E : env) (st : state) :
  (forall lessons,
      get_lesson_absence_data L E self (VList lessons) st = (Raise TypeError, st))
  /\ (forall lesson a st1,
         memo_lookup (Call_get_lesson_absence_data lesson) (memo st) = None ->
         get_lesson_absence_data L E self lesson st = (Ok a, st1) ->
         exists st',
           _get_lesson_absence_data L E self lesson st = (Ok a, st')
           /\ st1 = set_memo ((Call_get_lesson_absence_data lesson, a) :: memo st') st').
Proof.
  split; [reflexivity |].
  intros lesson a st1 Hmiss. unfold get_lesson_absence_data at 1. unfold cached at 1.
  cbn [call_hashable]. destruct (hashable lesson) eqn:Hhash; [| discriminate].
  cbn [negb]. rewrite Hmiss.
  destruct lesson; try discriminate;
    match goal with
    | |- context [_get_lesson_absence_data L E self ?l st] =>
        destruct (_get_lesson_absence_data L E self l st) as [[a' | e] st'];
        [| discriminate]; intros [= <- <-]; exists st'; split; reflexivity
    end.
Qed.
End NotRetried.

Lemma failed_generator_is_not_retried_witness :
  let call := Call_get_timetable (AStr "2021-12-05") (AStr "23.02.22") VNone (VInt 20) in
  let st1 := snd (invoke Demo.the_lib Demo.the_env Demo.john call Demo.st0) in
  let st2 := snd (gen_next Demo.the_lib Demo.the_env Demo.john 1 st1) in
  invoke Demo.the_lib Demo.the_env Demo.john call st2 = (Ok 1%nat, st2)
  /\ list_of_gen Demo.the_lib Demo.the_env Demo.john 1 st2 = (Ok [], st2).
Proof.
  cbv zeta.
  apply (failed_generator_is_not_retried Demo.the_lib Demo.john Demo.the_env Demo.the_env
           (Call_get_timetable (AStr "2021-12-05") (AStr "23.02.22") VNone (VInt 20))
           (Body_get_timetable (AStr "2021-12-05") (AStr "23.02.22") VNone (VInt 20))
           Demo.st0
           (snd (invoke Demo.the_lib Demo.the_env Demo.john
                   (Call_get_timetable (AStr "2021-12-05") (AStr "23.02.22") VNone (VInt 20))
                   Demo.st0))
           (snd (gen_next Demo.the_lib Demo.the_env Demo.john 1
                   (snd (invoke Demo.the_lib Demo.the_env Demo.john
                           (Call_get_timetable (AStr "2021-12-05") (AStr "23.02.22") VNone
                              (VInt 20))
                           Demo.st0))))
           1 BadTimestamp eq_refl).
  - split; [exists VNone | exists (VInt 20)]; (split; [constructor | reflexivity]).
  - reflexivity.
  - vm_compute. reflexivity.
  - vm_compute. reflexivity.
Defined.

(** ** Homework, continued *)

Section HomeworkSaved.
Variable L : lib.
Variable E : env.
Variable self : client.

(** X12: when the portal answers the saving of homework with a JSON object
    whose [data] is anything but the empty list, [set_homework_data] returns
    a new object: the Record of the whole answer. *)
Theorem set_homework_data_returns_answer
    (lesson : value) (title description : string) (st : state)
    (classId classId0 id j d : value) (response : http_response) :
  getattr lesson "classId" = Ok classId ->
  first_item classId = Ok classId0 ->
  getattr lesson "id" = Ok id ->
  response = post E self "timetable/ajax-save-lesson-home-work-data"
               [("timetableClassBookId", classId0); ("timetableId", id);
                ("homeWorkData[title]", VStr title);
                ("homeWorkData[description]", VStr description);
                ("csrfToken", VStr (_csrf_token self))] ->
  response_ok response = true ->
  json_loads L (content response) = Some j ->
  getattr (munchify j) "data" = Ok d ->
  py_eqb d (VList []) = false ->
  set_homework_data L E self lesson title description st
  = (Ok (length (heap st)), set_heap (heap st ++ [OVal (munchify j)]) st).
Proof.
  intros HclassId Hfirst Hid -> Hok Hjson Hdata Hd.
  unfold set_homework_data, response_json, _verify_response_code, alloc. unfold_M.
  rewrite HclassId, Hfirst, Hid, Hok, Hjson, Hdata, Hd. reflexivity.
Qed.
End HomeworkSaved.

Lemma set_homework_data_returns_answer_witness :
  set_homework_data Demo.the_lib (Demo.saving_env "Essay") Demo.john (Demo.lesson 1 "Maths")
    "Essay" "Two pages" Demo.st0
  = (Ok 1%nat,
     set_heap (heap Demo.st0 ++ [OVal (munchify (Demo.saved_json "Essay"))]) Demo.st0).
Proof.
  apply (set_homework_data_returns_answer Demo.the_lib (Demo.saving_env "Essay") Demo.john
           (Demo.lesson 1 "Maths") "Essay" "Two pages" Demo.st0
           (VList [VInt 5]) (VInt 5) (VInt 1) (Demo.saved_json "Essay")
           (VMunch [("title", VStr "Essay")]) _
           eq_refl eq_refl eq_refl eq_refl).
  - vm_compute. reflexivity.
  - vm_compute. reflexivity.
  - vm_compute. reflexivity.
  - vm_compute. reflexivity.
Defined.

(** ** The absence data of a lesson *)

Section OwnName.
Variable L : lib.
Variable E : env.
Variable self : client.

Lemma for_in_fold {A} (body : value -> A -> result A) g b items acc st st' :
  heap st !! g = Some (OGen (Created b)) ->
  gen_start L E self b st = (Ok items, st') ->
  fst (for_in L E self g body acc st) = fold_items body (map munchify items) acc.
Proof.
  intros Hg Hstart.
  assert (g < length (heap st))%nat as Hlt by (eapply lookup_lt_Some; exact Hg).
  pose proof (gen_start_heap L E self b st) as Hheap. rewrite Hstart in Hheap. simpl in Hheap.
  unfold for_in. unfold_M. unfold gen_next. rewrite Hg, Hstart.
  destruct items as [| x rest]; [reflexivity |]. cbn [map fold_items].
  destruct (body (munchify x) acc) as [acc' | e]; [| reflexivity].
  unfold pending. rewrite set_obj_lookup by congruence.
  apply for_fuel_fold. apply set_obj_lookup. congruence.
Qed.

Lemma find_snoc {A} (p : A -> bool) l x :
  List.find p (l ++ [x])
  = match List.find p l with
    | Some y => Some y
    | None => if p x then Some x else None
    end.
Proof.
  induction l as [| y l IH]; [reflexivity |]. cbn [app List.find].
  destruct (p y); [reflexivity | exact IH].
Qed.

Lemma find_rev_None {A} (p : A -> bool) l :
  List.find p (rev l) = None <-> existsb p l = false.
Proof.
  induction l as [| x l IH]; [split; reflexivity |].
  cbn [rev existsb]. rewrite find_snoc. destruct (List.find p (rev l)) as [y |].
  - split; [discriminate |]. intros H. apply orb_false_iff in H as [_ H].
    apply IH in H. discriminate.
  - destruct (p x); [split; discriminate |]. cbn [orb]. split; intros _; [| reflexivity].
    now apply IH.
Qed.

(** The loop over the classmates keeps the name of the last one that
    carries the caller's id. *)
Lemma fold_prepare_name items acc :
  Forall well_formed_mate items ->
  fold_items (prepare_name L self) items acc
  = Ok (match List.find (is_own_entry L self) (rev items) with
        | Some i => mate_name i
        | None => acc
        end).
Proof.
  intros Hwf. revert acc. induction Hwf as [| i items (pid & n & v & Hpid & Hn & Hv) _ IH];
    intros acc; [reflexivity |].
  cbn [fold_items rev]. rewrite find_snoc. unfold prepare_name at 1. unfold_M.
  rewrite Hpid, Hn, Hv. cbn [str_add]. unfold is_own_entry at 2. rewrite Hpid.
  destruct (String.eqb (py_str L (user_id self)) (py_str L pid)).
  - rewrite IH. destruct (List.find _ (rev items)); [reflexivity |].
    unfold mate_name. rewrite Hn, Hv. reflexivity.
  - rewrite IH. destruct (List.find _ (rev items)); reflexivity.
Qed.

Lemma getattr_raises i k e : getattr i k = Raise e -> e = AttributeError k.
Proof.
  destruct i; simpl; try congruence. destruct (assoc k kvs); simpl; congruence.
Qed.

(** X13: on a client that has not fetched its classmates yet,
    [_get_lesson_absence_data] fails with the [AssertionError] of its
    [assert] on the caller's name exactly when no classmate of the page
    carries the caller's id (both taken as text). *)
Theorem lesson_absence_needs_own_entry
    (lesson : value) (st : state) (items : list value) :
  hashable lesson = true ->
  memo_lookup (Call__get_lesson_absence_data lesson) (memo st) = None ->
  memo_lookup Call_get_class_mates (memo st) = None ->
  response_ok (get E self "list/index/list/45") = true ->
  extract_grid L (Extract.bytes_repr (content (get E self "list/index/list/45"))) = Ok items ->
  Forall well_formed_mate (map munchify items) ->
  fst (_get_lesson_absence_data L E self lesson st) = Raise no_own_entry
  <-> existsb (is_own_entry L self) (map munchify items) = false.
Proof.
  intros Hhash Hmiss Hmates Hok Hgrid Hwf.
  unfold _get_lesson_absence_data, cached. cbn [call_hashable]. rewrite Hhash. cbn [negb].
  rewrite Hmiss. unfold mbind at 1. unfold M_bind at 1.
  unfold get_class_mates, cached. cbn [call_hashable negb]. rewrite Hmates.
  unfold alloc at 1. cbv beta iota.
  set (st1 := set_memo ((Call_get_class_mates, length (heap st)) :: memo _) _).
  assert (heap st1 !! length (heap st) = Some (OGen (Created Body_get_class_mates))) as Hg.
  { unfold st1. cbn. now apply list_lookup_middle. }
  assert (gen_start L E self Body_get_class_mates st1 = (Ok items, st1)) as Hstart.
  { unfold gen_start, _verify_response_code. rewrite Hok. unfold_M. rewrite Hgrid.
    reflexivity. }
  pose proof (for_in_fold (prepare_name L self) _ _ items None st1 st1 Hg Hstart) as Hloop.
  rewrite (fold_prepare_name _ None Hwf) in Hloop.
  rewrite <- find_rev_None.
  unfold mbind at 1. unfold M_bind at 1.
  destruct (for_in L E self (length (heap st)) (prepare_name L self) None st1)
    as [r st2]. cbn [fst] in Hloop. subst r.
  destruct (List.find (is_own_entry L self) (rev (map munchify items))) as [i |] eqn:Hfind.
  - assert (exists name, mate_name i = Some name) as [name Hname].
    { apply find_some in Hfind as [Hin _]. apply in_rev in Hin.
      rewrite Forall_forall in Hwf. destruct (Hwf i Hin) as (pid & n & v & _ & Hn & Hv).
      unfold mate_name. rewrite Hn, Hv. eexists; reflexivity. }
    rewrite Hname. split; [| discriminate]. intros H. exfalso.
    unfold _verify_response_code in H. unfold_M.
    unfold no_own_entry in H. split_matches; cbn in H;
      repeat match goal with
             | Hx : getattr _ _ = Raise _ |- _ => apply getattr_raises in Hx; subst
             end; congruence.
  - split; [reflexivity |]. intros _. reflexivity.
Qed.
End OwnName.

Lemma lesson_absence_needs_own_entry_witness :
  fst (_get_lesson_absence_data Demo.the_lib Demo.the_env
         (Client "https://intranet.tam.ch/krm/" "max.moe" "secret" "tok_1" (VInt 9))
         (Demo.lesson 1 "Maths") Demo.st0)
  = Raise no_own_entry.
Proof.
  apply (proj2 (lesson_absence_needs_own_entry Demo.the_lib Demo.the_env
                  (Client "https://intranet.tam.ch/krm/" "max.moe" "secret" "tok_1" (VInt 9))
                  (Demo.lesson 1 "Maths") Demo.st0
                  [Demo.mate "7" "Doe" "John"; Demo.mate "8" "Roe" "Jane"]
                  eq_refl eq_refl eq_refl eq_refl
                  ltac:(vm_compute; reflexivity)
                  ltac:(repeat constructor; do 3 eexists; repeat split; reflexivity))).
  vm_compute. reflexivity.
Defined.

Lemma lesson_list_is_TypeError_witness :
  get_lesson_absence_data Demo.the_lib Demo.the_env Demo.john
    (VList [Demo.lesson 1 "Maths"]) Demo.st0 = (Raise TypeError, Demo.st0)
  /\ exists st',
       _get_lesson_absence_data Demo.the_lib Demo.the_env Demo.john (Demo.lesson 1 "Maths")
         Demo.st0 = (Ok 2%nat, st')
       /\ snd (get_lesson_absence_data Demo.the_lib Demo.the_env Demo.john
                 (Demo.lesson 1 "Maths") Demo.st0)
          = set_memo ((Call_get_lesson_absence_data (Demo.lesson 1 "Maths"), 2%nat) :: memo st')
              st'.
Proof.
  split.
  - apply (proj1 (lesson_list_is_TypeError Demo.the_lib Demo.john Demo.the_env Demo.st0)).
  - apply (proj2 (lesson_list_is_TypeError Demo.the_lib Demo.john Demo.the_env Demo.st0)
             (Demo.lesson 1 "Maths") 2%nat
             (snd (get_lesson_absence_data Demo.the_lib Demo.the_env Demo.john
                     (Demo.lesson 1 "Maths") Demo.st0))).
    + vm_compute. reflexivity.
    + vm_compute. reflexivity.
Defined.

(** ** Construction of a client *)

Section ConstructionErrors.
Variable L : lib.
Variable E : env.

Lemma match_students_raises wanted roster e :
  match_students wanted roster = Raise e ->
  e = UserIdNotMatching \/ In e [AttributeError "name"; AttributeError "personId";
                                 AttributeError "lower"].
Proof.
  induction roster as [| i roster IH]; cbn [match_students]; [intros [= <-]; now left |].
  unfold_M. destruct (getattr i "name") as [name | e'] eqn:Hname.
  - destruct name; try (intros [= <-]; right; cbn; tauto).
    destruct (String.eqb wanted (Str.lower s)); [| exact IH].
    intros H. apply getattr_raises in H as ->. right; cbn; tauto.
  - intros [= <-]. apply getattr_raises in Hname as ->. right; cbn; tauto.
Qed.

Lemma match_username_raises username students e :
  _match_username_to_user_id username students = Raise e ->
  In e [UserIdNotMatching; ValueError; TypeError; AttributeError "name";
        AttributeError "personId"; AttributeError "lower"].
Proof.
  unfold _match_username_to_user_id.
  destruct (Str.split "." username) as [| f [| l [| x r]]];
    try (intros [= <-]; cbn; tauto).
  unfold_M. destruct (py_iter students) as [roster | e'] eqn:Hiter.
  - intros H. apply match_students_raises in H as [-> | H]; cbn in *; tauto.
  - destruct students; cbn in Hiter; try discriminate; injection Hiter as <-;
      intros [= <-]; cbn; tauto.
Qed.

Lemma get_resources_raises self st e st' :
  get_resources L E self st = (Raise e, st') ->
  st' = st
  /\ (e = AuthenticationError \/ e = KeyError "data" \/ e = TypeError
      \/ exists m a, e = AssertionError m a).
Proof.
  unfold get_resources, cached, alloc, response_json, getitem, _verify_response_code.
  unfold_M. cbn [call_hashable negb].
  intros H. split_matches; split; try reflexivity; eauto 6.
Qed.

(** After the landing page: the login, the classbook page, the token, the
    resources and the identity. *)
Lemma init_after_landing h username password schoolcode st :
  response_ok (landing E) = true ->
  soup_input_value L (content (landing E)) = Some h ->
  Intranet_init L E username password schoolcode st
  = (_ ← lift (_verify_response_code "authentication"
                 (login E h username password schoolcode));
     classbook_response ← lift (_verify_response_code "classbook_response"
                                  (classbook E schoolcode));
     csrf ← lift (of_option (AttributeError "group")
                    (Extract.search_csrftoken (content classbook_response)));
     let self := Client (_BASE_URL +:+ schoolcode +:+ "/") username password csrf VNone in
     resources ← get_resources L E self;
     r ← deref resources;
     students ← lift (getattr r "students");
     uid ← lift (_match_username_to_user_id username students);
     mret (Client (self_BASE_URL self) username password (_csrf_token self) uid)) st.
Proof.
  intros Hok Hh. unfold landing in Hok, Hh.
  unfold Intranet_init, handshake, login, classbook, _verify_response_code.
  rewrite Hok, Hh. unfold_M.
  repeat match goal with
         | |- context [response_ok ?x] => destruct (response_ok x); [| reflexivity]
         | |- context [Extract.search_csrftoken ?x] =>
             destruct (Extract.search_csrftoken x); [| reflexivity]
         end.
  match goal with
  | |- context [get_resources L E ?c st] => destruct (get_resources L E c st) as [[a | e] st1]
  end; reflexivity.
Qed.

(** X14: the construction of a client fails with [IntranetConnectionError]
    exactly when the landing page is not answered with an OK status or
    holds no hidden input; no later step (login, classbook page, token,
    resources, identity) raises it. *)
Theorem init_connection_error (username password schoolcode : string) (st : state) :
  fst (Intranet_init L E username password schoolcode st) = Raise IntranetConnectionError
  <-> response_ok (landing E) = false \/ soup_input_value L (content (landing E)) = None.
Proof.
  destruct (response_ok (landing E)) eqn:Hok;
    [destruct (soup_input_value L (content (landing E))) as [h |] eqn:Hh |].
  - rewrite (init_after_landing h) by assumption.
    split; [| intros [H | H]; discriminate]. intros H. exfalso.
    unfold _verify_response_code in H. unfold_M. cbn [self_BASE_URL _csrf_token] in H.
    repeat match type of H with
           | context [response_ok ?x] =>
               destruct (response_ok x); cbv beta iota zeta in H; cbn [fst] in H;
               try discriminate
           | context [Extract.search_csrftoken ?x] =>
               destruct (Extract.search_csrftoken x); cbv beta iota zeta in H;
               cbn [fst] in H; try discriminate
           end.
    match type of H with
    | context [get_resources L E ?c st] =>
        destruct (get_resources L E c st) as [[a | e] st1] eqn:Hres
    end.
    + cbv beta iota in H. unfold deref in H.
      destruct (heap st1 !! a) as [[g | v] |]; cbn in H; try discriminate.
      destruct (getattr v "students") as [students | e] eqn:Hst; cbn in H.
      * destruct (_match_username_to_user_id username students) as [uid | e] eqn:Hm;
          cbn in H; [discriminate |].
        apply match_username_raises in Hm. cbn in Hm. injection H as ->.
        intuition discriminate.
      * apply getattr_raises in Hst. congruence.
    + cbn in H. injection H as ->.
      apply get_resources_raises in Hres as [_ [? | [? | [? | (m & a & ?)]]]]; discriminate.
  - split; [intros _; now right | intros _].
    unfold landing in Hok, Hh. unfold Intranet_init, handshake, _verify_response_code.
    rewrite Hok, Hh. reflexivity.
  - split; [intros _; now left | intros _].
    unfold landing in Hok. unfold Intranet_init, handshake, _verify_response_code.
    rewrite Hok. reflexivity.
Qed.
End ConstructionErrors.

Section ConstructionSteps.
Variable L : lib.
Variable E : env.

(** X15: when the landing page, the login and the classbook page are all
    answered with an OK status, the construction fails with the
    [AttributeError] of [.group()] on [None] exactly when the classbook page
    holds no CSRF token. *)
Theorem init_without_token (h username password schoolcode : string) (st : state) :
  response_ok (landing E) = true ->
  soup_input_value L (content (landing E)) = Some h ->
  response_ok (login E h username password schoolcode) = true ->
  response_ok (classbook E schoolcode) = true ->
  fst (Intranet_init L E username password schoolcode st) = Raise (AttributeError "group")
  <-> Extract.search_csrftoken (content (classbook E schoolcode)) = None.
Proof.
  intros Hok Hh Hlogin Hbook. rewrite (init_after_landing L E h) by assumption.
  unfold _verify_response_code. rewrite Hlogin, Hbook. unfold_M.
  destruct (Extract.search_csrftoken (content (classbook E schoolcode))) as [tok |];
    [| split; reflexivity].
  split; [| discriminate]. intros H. exfalso. cbv beta iota zeta in H.
  match type of H with
  | context [get_resources L E ?c st] =>
      destruct (get_resources L E c st) as [[a | e] st1] eqn:Hres
  end.
  - cbv beta iota in H. unfold deref in H.
    destruct (heap st1 !! a) as [[g | v] |]; cbn in H; try discriminate.
    destruct (getattr v "students") as [students | e] eqn:Hst; cbn in H.
    + destruct (_match_username_to_user_id username students) as [uid | e] eqn:Hm;
        cbn in H; [discriminate |].
      apply match_username_raises in Hm. cbn in Hm. injection H as ->.
      intuition discriminate.
    + apply getattr_raises in Hst. congruence.
  - cbn in H. injection H as ->.
    apply get_resources_raises in Hres as [_ [? | [? | [? | (m & a & ?)]]]]; discriminate.
Qed.

Lemma match_students_ok wanted roster uid :
  match_students wanted roster = Ok uid ->
  exists i, In i roster /\ name_is wanted i = true /\ getattr i "personId" = Ok uid.
Proof.
  induction roster as [| i roster IH]; cbn [match_students]; [discriminate |].
  unfold_M. destruct (getattr i "name") as [name | e] eqn:Hname; [| discriminate].
  destruct name; try discriminate.
  destruct (String.eqb wanted (Str.lower s)) eqn:Heq.
  - intros H. exists i. split; [now left |]. split; [| exact H].
    unfold name_is. now rewrite Hname.
  - intros H. destruct (IH H) as (j & Hin & Hj). exists j. split; [now right | exact Hj].
Qed.

(** X16: a client that has been constructed has the base URL of its school,
    the token of the classbook page and, as its id, the [personId] of a
    roster entry whose lower-cased name is ["lastname, firstname"] for its
    username [firstname.lastname]; the roster is that of the resources, which
    are in the cache: [get_resources] returns them from then on, whatever
    the portal would answer. *)
Theorem init_gives_identity (username password schoolcode : string)
    (st st' : state) (self : client) :
  Intranet_init L E username password schoolcode st = (Ok self, st') ->
  self_BASE_URL self = _BASE_URL +:+ schoolcode +:+ "/"
  /\ Extract.search_csrftoken (content (classbook E schoolcode)) = Some (_csrf_token self)
  /\ exists a r students roster firstname lastname i,
       (forall E', get_resources L E' self st' = (Ok a, st'))
       /\ heap st' !! a = Some (OVal r)
       /\ getattr r "students" = Ok students
       /\ py_iter students = Ok roster
       /\ Str.split "." username = [firstname; lastname]
       /\ In i roster
       /\ name_is (wanted_name firstname lastname) i = true
       /\ getattr i "personId" = Ok (user_id self).
Proof.
  intros H.
  destruct (response_ok (landing E)) eqn:Hok.
  2:{ unfold landing in Hok. unfold Intranet_init, handshake, _verify_response_code in H.
      rewrite Hok in H. discriminate. }
  destruct (soup_input_value L (content (landing E))) as [h |] eqn:Hh.
  2:{ unfold landing in Hok, Hh. unfold Intranet_init, handshake, _verify_response_code in H.
      rewrite Hok, Hh in H. discriminate. }
  rewrite (init_after_landing L E h) in H by assumption.
  unfold _verify_response_code in H. unfold_M.
  destruct (response_ok (login E h username password schoolcode)); [| discriminate].
  destruct (response_ok (classbook E schoolcode)); [| discriminate].
  destruct (Extract.search_csrftoken (content (classbook E schoolcode))) as [tok |];
    [| discriminate].
  cbv beta iota zeta in H.
  match type of H with
  | context [get_resources L E ?c st] =>
      destruct (get_resources L E c st) as [[a | e] st1] eqn:Hres
  end; [| discriminate].
  cbv beta iota in H. unfold deref in H.
  destruct (heap st1 !! a) as [[g | r] |] eqn:Ha; try discriminate.
  cbv beta iota in H.
  destruct (getattr r "students") as [students | e] eqn:Hst; [| discriminate].
  destruct (_match_username_to_user_id username students) as [uid | e] eqn:Hm;
    [| discriminate].
  injection H as <- <-. cbn [self_BASE_URL _csrf_token user_id].
  split; [reflexivity |]. split; [reflexivity |].
  unfold _match_username_to_user_id in Hm.
  destruct (Str.split "." username) as [| firstname [| lastname [| x rest]]];
    try discriminate.
  unfold_M. destruct (py_iter students) as [roster | e] eqn:Hiter; [| discriminate].
  destruct (match_students_ok _ _ _ Hm) as (i & Hin & Hname & Hid).
  exists a, r, students, roster, firstname, lastname, i.
  split; [| repeat split; assumption].
  intros E'. unfold get_resources, cached in Hres |- *. cbn [call_hashable negb] in Hres |- *.
  destruct (memo_lookup Call_get_resources (memo st)) as [a0 |] eqn:Hhit.
  - injection Hres as <- <-. now rewrite Hhit.
  - match type of Hres with
    | context [let (_, _) := ?b in _] => destruct b as [[a1 | e] st2]
    end; [| discriminate].
    injection Hres as <- <-. reflexivity.
Qed.
End ConstructionSteps.

Lemma init_without_token_witness :
  fst (Intranet_init Demo.the_lib
         (Env (fun r => if String.eqb (url r) "https://intranet.tam.ch/"
                        then Response 200 Demo.landing_page
                        else Response 200 Demo.login_page) Demo.wednesday)
         "john.doe" "secret" "krm" (State [] [] None []))
  = Raise (AttributeError "group").
Proof.
  apply (proj2 (init_without_token Demo.the_lib
                  (Env (fun r => if String.eqb (url r) "https://intranet.tam.ch/"
                                 then Response 200 Demo.landing_page
                                 else Response 200 Demo.login_page) Demo.wednesday)
                  "h4sh" "john.doe" "secret" "krm" (State [] [] None [])
                  eq_refl eq_refl eq_refl eq_refl)).
  vm_compute. reflexivity.
Defined.

Lemma init_gives_identity_witness :
  exists a, forall E', get_resources Demo.the_lib E' Demo.john Demo.st0 = (Ok a, Demo.st0).
Proof.
  destruct (init_gives_identity Demo.the_lib Demo.the_env "john.doe" "secret" "krm"
              (State [] [] None []) Demo.st0 Demo.john)
    as (_ & _ & a & _ & _ & _ & _ & _ & _ & Hres & _).
  - vm_compute. reflexivity.
  - exists a. exact Hres.
Defined.

(** ** The resources *)

Section Resources.
Variable L : lib.
Variable E : env.
Variable self : client.

(** X17: a call of [get_resources] that is not answered from the cache
    fails with [AuthenticationError] exactly when the portal answers with an
    OK status and a body that is not JSON; and a call that fails, with
    whatever exception, leaves the cache as it was, so that the next call
    asks the portal again. *)
Theorem get_resources_authentication (st : state) :
  memo_lookup Call_get_resources (memo st) = None ->
  (fst (get_resources L E self st) = Raise AuthenticationError
   <-> response_ok (resources_answer E self) = true
       /\ json_loads L (content (resources_answer E self)) = None)
  /\ (forall e st', get_resources L E self st = (Raise e, st') -> st' = st).
Proof.
  intros Hmiss. split; [| intros e st' H; now apply get_resources_raises in H].
  unfold get_resources, cached, resources_answer. cbn [call_hashable negb]. rewrite Hmiss.
  unfold _verify_response_code, response_json, getitem, alloc. unfold_M.
  destruct (response_ok (post E self _ _)); [| split; [discriminate | intros [? _]; discriminate]].
  destruct (json_loads L (content (post E self _ _))) as [j |].
  - split; [| intros [_ ?]; discriminate]. intros H. exfalso.
    destruct j; cbn in H; try discriminate;
      match type of H with
      | context [assoc ?k ?m] => destruct (assoc k m); discriminate
      end.
  - split; [intros _; split; reflexivity | reflexivity].
Qed.
End Resources.

Lemma get_resources_authentication_witness :
  fst (get_resources Demo.the_lib (Env (fun _ => Response 200 Demo.login_page) Demo.wednesday)
         Demo.john (State [] [] None []))
  = Raise AuthenticationError.
Proof.
  apply (proj2 (proj1 (get_resources_authentication Demo.the_lib
                         (Env (fun _ => Response 200 Demo.login_page) Demo.wednesday)
                         Demo.john (State [] [] None []) eq_refl))).
  split; vm_compute; reflexivity.
Defined.

(** ** Lessons as cache keys *)

Section LessonKeys.
Variable L : lib.
Variable self : client.

Lemma assoc_Some_In {A} k (x : A) kvs : assoc k kvs = Some x -> In (k, x) kvs.
Proof.
  induction kvs as [| [k' x'] kvs IH]; [discriminate |]. cbn [assoc].
  destruct (String.eqb_spec k k') as [-> | _]; [intros [= ->]; now left |].
  intros H. right. now apply IH.
Qed.

Lemma same_json_sym j1 : forall j2, same_json j1 j2 -> same_json j2 j1.
Proof.
  induction j1 as [| b | n | q | s | l IH | kvs IH | kvs IH] using value_nested_ind;
    intros j2 Hsame; inversion Hsame; subst; try constructor; try assumption.
  - match goal with H : Forall2 same_json _ _ |- _ => rename H into Hl end.
    clear Hsame. induction Hl as [| x y l l2 Hxy Hl IHl]; [constructor |].
    apply Forall_cons_iff in IH as [IHx IHr]. constructor; auto.
  - intros k.
    match goal with H : forall k, option_Forall2 _ _ _ |- _ => pose proof (H k) as Hk end.
    destruct (assoc k kvs) as [x |] eqn:Hx; inversion Hk; subst; constructor.
    apply assoc_Some_In in Hx. rewrite Forall_forall in IH. now apply (IH (k, x) Hx).
Qed.

Lemma same_json_hashable j1 j2 :
  same_json j1 j2 -> hashable (munchify j2) = hashable (munchify j1).
Proof. intros H; inversion H; reflexivity. Qed.

(** A miss of the cache that returns makes every call with an equal key a
    hit. *)
Lemma cached_equal_key c c' body body' st a st1 :
  call_eqb c' c = true ->
  call_hashable c' = call_hashable c ->
  memo_lookup c (memo st) = None ->
  cached c body st = (Ok a, st1) ->
  cached c' body' st1 = (Ok a, st1).
Proof.
  intros Heq Hhash Hmiss. unfold cached. rewrite Hhash, Hmiss.
  destruct (call_hashable c); cbn [negb]; [| discriminate].
  destruct (body st) as [[a1 | e] st'']; [| discriminate].
  intros [= <- <-]. cbn [memo set_memo memo_lookup]. now rewrite Heq.
Qed.

(** X18: the cache of the methods that take a lesson is keyed by the
    lesson's fields, not by the object: once a call that was not answered
    from the cache has returned, a call with a lesson wrapped from JSON with
    the same fields, in whatever member order, is answered with the same
    object and sends nothing, whatever the portal would answer by then. *)
Theorem equal_lessons_share_an_entry
    (E E' : env) (mk : value -> call) (j1 j2 : value) (st st1 : state) (a : nat) :
  In mk lesson_calls ->
  same_json j1 j2 ->
  memo_lookup (mk (munchify j1)) (memo st) = None ->
  invoke L E self (mk (munchify j1)) st = (Ok a, st1) ->
  invoke L E' self (mk (munchify j2)) st1 = (Ok a, st1).
Proof.
  intros Hmk Hsame Hmiss Hcall.
  pose proof (py_eqb_same_json j2 j1 (same_json_sym _ _ Hsame)) as Heq.
  pose proof (same_json_hashable _ _ Hsame) as Hhash.
  destruct (invoke_cached L self E (mk (munchify j1))) as [body Hbody].
  destruct (invoke_cached L self E' (mk (munchify j2))) as [body' Hbody'].
  rewrite Hbody in Hcall. rewrite Hbody'.
  apply (cached_equal_key (mk (munchify j1)) _ body body' st); try assumption.
  - cbn in Hmk. destruct Hmk as [<- | [<- | [<- | []]]]; exact Heq.
  - cbn in Hmk. destruct Hmk as [<- | [<- | [<- | []]]]; exact Hhash.
Qed.
End LessonKeys.

Lemma equal_lessons_share_an_entry_witness :
  let again :=
    VDict [("title", VStr "Maths"); ("lessonEnd", VStr "08:45"); ("lessonStart", VStr "08:00");
           ("lessonDate", VStr "2021-12-06"); ("classId", VList [VInt 5]);
           ("courseId", VInt 40); ("id", VInt 1)] in
  let st1 := snd (invoke Demo.the_lib Demo.the_env Demo.john
                    (Call__get_lesson_absence_data (Demo.lesson 1 "Maths")) Demo.st0) in
  invoke Demo.the_lib Demo.expired_env Demo.john
    (Call__get_lesson_absence_data (munchify again)) st1 = (Ok 2%nat, st1).
Proof.
  cbv zeta.
  apply (equal_lessons_share_an_entry Demo.the_lib Demo.john Demo.the_env Demo.expired_env
           Call__get_lesson_absence_data (Demo.lesson_json 1 "Maths") _ Demo.st0).
  - left. reflexivity.
  - constructor.
    + cbn. repeat (constructor; [cbn; intuition discriminate |]). constructor.
    + cbn. repeat (constructor; [cbn; intuition discriminate |]). constructor.
    + intros k. cbn [assoc].
      repeat match goal with
             | |- context [String.eqb k ?s] =>
                 destruct (String.eqb_spec k s) as [-> | ?]; [cbn; repeat constructor |]
             end.
      constructor.
  - reflexivity.
  - vm_compute. reflexivity.
Defined.

(** ** The text of a response's bytes *)

Module OneLineFacts.

Lemma contains_append a s t :
  Extract.contains a (s +:+ t) = Extract.contains a s || Extract.contains a t.
Proof.
  induction s as [| c s IH]; [reflexivity |].
  change (String c s +:+ t) with (String c (s +:+ t)). cbn [Extract.contains].
  rewrite IH. apply orb_assoc.
Qed.

Lemma repr_byte_one_line q c :
  q = Extract.squote \/ q = Extract.dquote ->
  Extract.contains Extract.newline (Extract.repr_byte q c) = false.
Proof.
  intros [-> | ->]; destruct c as [[] [] [] [] [] [] [] []]; vm_compute; reflexivity.
Qed.

Lemma repr_body_one_line q b :
  q = Extract.squote \/ q = Extract.dquote ->
  Extract.contains Extract.newline (Extract.repr_body q b) = false.
Proof.
  intros Hq. induction b as [| c b IH]; [reflexivity |]. cbn [Extract.repr_body].
  now rewrite contains_append, repr_byte_one_line, IH.
Qed.

Lemma bytes_repr_one_line b :
  Extract.contains Extract.newline (Extract.bytes_repr b) = false.
Proof.
  unfold Extract.bytes_repr.
  set (q := if Extract.contains Extract.squote b && negb (Extract.contains Extract.dquote b)
            then Extract.dquote else Extract.squote).
  assert (q = Extract.squote \/ q = Extract.dquote) as Hq.
  { unfold q. destruct (_ && _); [now right | now left]. }
  cbn [Extract.contains]. rewrite contains_append, repr_body_one_line by exact Hq.
  cbn [Extract.contains]. destruct Hq as [-> | ->]; reflexivity.
Qed.

End OneLineFacts.

Section OneLine.
Import ExtractFacts OneLineFacts.

(** X19: the text [str(response.content)] in which [get_absences] and
    [get_class_mates] look for the embedded JSON never holds a line feed,
    whatever the bytes of the response are, so that the pattern's [.*] is
    not stopped by the lines of the page: the pattern is found exactly when
    the text holds the marker, an opening brace and, anywhere further on,
    [},front]. *)
Theorem bytes_text_is_one_line (b : string) :
  Extract.contains Extract.newline (Extract.bytes_repr b) = false
  /\ (Extract.search_absences (Extract.bytes_repr b) <> None
      <-> exists pre a post,
            Extract.bytes_repr b = pre +:+ grid_marker +:+ "{" +:+ a +:+ grid_closing +:+ post).
Proof.
  split; [apply bytes_repr_one_line |]. split.
  - destruct (Extract.search_absences (Extract.bytes_repr b)) as [m |] eqn:H; [| congruence].
    intros _. destruct (search_absences_sound _ m H) as (pre & a & post & Hs & _).
    exists pre, a, post. exact Hs.
  - intros (pre & a & post & Hs). rewrite Hs.
    assert (Extract.contains Extract.newline a = false) as Hnl.
    { pose proof (bytes_repr_one_line b) as Hb. rewrite Hs in Hb.
      rewrite !contains_append in Hb.
      repeat match type of Hb with
             | _ || _ = false => apply orb_false_iff in Hb as [? Hb]
             end.
      repeat match goal with
             | H : _ || _ = false |- _ => apply orb_false_iff in H as [? ?]
             end.
      assumption. }
    destruct (search_absences_complete pre a post Hnl) as [m ->]. discriminate.
Qed.
End OneLine.
